(** * Alert lifecycle engine of [monitoring/advanced-alerting-system.py]

    A shallow embedding of [AdvancedNotificationManager]: alert creation,
    suppression, de-duplication, notification fan-out, escalation timers,
    acknowledge and resolve.

    Conventions of the embedding.
    - A [datetime] is a number of microseconds of naive local time, counted
      from 1970-01-01 00:00:00; the local zone is UTC.  A real [datetime]
      lies between [datetime_min] and [datetime_max].  A [timedelta] is a
      number of microseconds; [timedelta(seconds=n)] is [n * 1000000].
    - [datetime.now()] and [uuid.uuid4()] are read from the environment: the
      operations take the value read as an argument.
    - Alert objects are mutable and shared between [active_alerts], the
      work queue and the timer callbacks.  Every reference to an accepted
      alert is modelled by its id, and [active_alerts] is the store that
      holds the object.
    - The SQLite database is an append-only log of the calls made to
      [save_alert] and [save_notification]; the channel transports are a
      log of the [send] calls together with an oracle that says whether a
      call raises.
    - The metadata of an alert is held by value: a dict that a caller
      passes to several creations is not shared between their alerts.
    - Calls to the logger are not part of the model. *)

From Stdlib Require Import ZArith List Bool Ascii String Lia Sorted.
From stdpp Require Import base option list gmap strings fin_maps.
Import ListNotations.

Open Scope string_scope.
Open Scope list_scope.
Open Scope Z_scope.

(** ** Enumerations *)

Inductive AlertSeverity : Type :=
  | INFO | LOW | MEDIUM | HIGH | CRITICAL | EMERGENCY.

Inductive NotificationChannel : Type :=
  | EMAIL | SLACK | DISCORD | SMS | TELEGRAM | WHATSAPP | WEBHOOK
  | PUSH_NOTIFICATION | IN_APP | SLACK_BOT.

Inductive EscalationAction : Type :=
  | NOTIFY_NEXT_LEVEL | ESCALATE_MANAGER | CALL_ONDUTY | PAGING_SYSTEM
  | SMS_BROADCAST | AUTO_RESOLUTION.

Inductive AlertStatus : Type :=
  | NEW | ACKNOWLEDGED | IN_PROGRESS | RESOLVED | CLOSED | ESCALATED
  | SUPPRESSED.

#[global] Instance AlertSeverity_eq_dec : EqDecision AlertSeverity.
Proof. solve_decision. Defined.
#[global] Instance NotificationChannel_eq_dec : EqDecision NotificationChannel.
Proof. solve_decision. Defined.
#[global] Instance EscalationAction_eq_dec : EqDecision EscalationAction.
Proof. solve_decision. Defined.
#[global] Instance AlertStatus_eq_dec : EqDecision AlertStatus.
Proof. solve_decision. Defined.

(** [AlertSeverity.value] *)
Definition severity_value (s : AlertSeverity) : string :=
  match s with
  | INFO => "info" | LOW => "low" | MEDIUM => "medium" | HIGH => "high"
  | CRITICAL => "critical" | EMERGENCY => "emergency"
  end.

(** ** Dates and times *)

Definition datetime := Z.

Definition timedelta_seconds (n : Z) : Z := n * 1000000.

(** [datetime.min] and [datetime.max]: 0001-01-01 00:00:00 and
    9999-12-31 23:59:59.999999. *)
Definition datetime_min : datetime := -62135596800000000.

Definition datetime_max : datetime := 253402300799999999.

(** [timedelta(seconds=n)] for an integer [n]; [None] stands for the
    [OverflowError] raised when the number of days leaves the range of a
    [timedelta], from -999999999 to 999999999. *)
Definition timedelta_of_seconds (n : Z) : option Z :=
  if (-999999999 <=? n / 86400) && (n / 86400 <=? 999999999)
  then Some (timedelta_seconds n) else None.

(** [dt + delta]; [None] stands for the [OverflowError] raised when the sum
    is not a [datetime]. *)
Definition datetime_add (dt : datetime) (delta : Z) : option datetime :=
  if (datetime_min <=? dt + delta) && (dt + delta <=? datetime_max)
  then Some (dt + delta) else None.

(** Whether [dt.timestamp()] returns for a naive [dt].  The conversion
    looks at the local time one day before [dt] and raises [ValueError]
    when that day falls before the year 1; in the zone UTC nothing else
    fails. *)
Definition timestamp_returns (dt : datetime) : bool :=
  datetime_min + 86400000000 <=? dt.

(** [datetime.time] : hour, minute, second, microsecond. *)
Record time : Type := mk_time {
  hour : Z; minute : Z; second : Z; microsecond : Z
}.

Definition microseconds_per_day : Z := 86400 * 1000000.

(** [dt.time()] *)
Definition datetime_time (dt : datetime) : time :=
  let us := dt mod microseconds_per_day in
  {| hour := us / 3600000000;
     minute := (us / 60000000) mod 60;
     second := (us / 1000000) mod 60;
     microsecond := us mod 1000000 |}.

(** Comparison of two naive [time] objects: lexicographic on the fields. *)
Definition time_le (a b : time) : bool :=
  if hour a <? hour b then true
  else if hour b <? hour a then false
  else if minute a <? minute b then true
  else if minute b <? minute a then false
  else if second a <? second b then true
  else if second b <? second a then false
  else microsecond a <=? microsecond b.

(** ** Records *)

Record Alert : Type := mk_Alert {
  id : string;
  title : string;
  message : string;
  severity : AlertSeverity;
  category : string;
  source : string;
  timestamp : datetime;
  status : AlertStatus;
  metadata : gmap string string;
  assigned_to : option string;
  acknowledged_by : option string;
  acknowledged_at : option datetime;
  resolved_by : option string;
  resolved_at : option datetime;
  escalation_level : Z;
  alert_suppression_rules : list string;
  dedup_key : option string;
  tags : list string
}.

(** Keys met in [EscalationPolicy.time_thresholds]: the annotation says
    [Dict[AlertSeverity, int]], and [schedule_escalation] looks levels
    (integers) up in it. *)
Inductive ThresholdKey : Type :=
  | KSeverity (s : AlertSeverity)
  | KLevel (n : Z).

#[global] Instance ThresholdKey_eq_dec : EqDecision ThresholdKey.
Proof. solve_decision. Defined.

Record EscalationPolicy : Type := mk_EscalationPolicy {
  name : string;
  severity_levels : list AlertSeverity;
  time_thresholds : list (ThresholdKey * Z);
  policy_notification_channels : list (Z * list NotificationChannel);
  escalation_rules : list (Z * EscalationAction);
  max_escalation_level : Z;
  auto_resolve_after : option Z
}.

(** A dictionary whose iteration order matters is an association list in
    insertion order; [k in d] and [d[k]] read the first binding. *)
Fixpoint dict_get {K V : Type} `{EqDecision K} (d : list (K * V)) (k : K)
  : option V :=
  match d with
  | [] => None
  | (k', v) :: rest => if decide (k' = k) then Some v else dict_get rest k
  end.

(** One entry of [self.suppression_rules]: every key of the rule's dict is
    optional. *)
Record SuppressionRule : Type := mk_SuppressionRule {
  start_time : option string;
  end_time : option string;
  time_based : option bool;
  categories : option (list string);
  sources : option (list string);
  severities : option (list string)
}.

(** What [channel.send(alert, is_escalation=...)] does: return, or raise an
    exception with a message. *)
Inductive send_result : Type :=
  | SendOk
  | SendRaises (msg : string).

Definition ChannelImpl : Type := Alert -> bool -> send_result.

(** A pending [threading.Timer] armed by [schedule_escalation]. *)
Record Timer : Type := mk_Timer {
  fire_at : datetime;
  timer_alert : string;
  timer_level : Z
}.

(** One call to a channel's [send]. *)
Record SendCall : Type := mk_SendCall {
  send_channel : NotificationChannel;
  send_alert : string;
  send_is_escalation : bool
}.

(** One call to the persistence layer. *)
Inductive DbCall : Type :=
  | SaveAlert (a : Alert)
  | SaveNotification (alert_id : string) (channel : NotificationChannel)
                     (st : string) (error_message : option string).

(** One side effect run by [execute_escalation_action]. *)
Inductive ActionCall : Type :=
  | EscalateToManager (alert_id : string)
  | CallOnDuty (alert_id : string)
  | TriggerPaging (alert_id : string)
  | SendSmsBroadcast (alert_id : string)
  | AutoResolveAlert (alert_id : string).

Record AdvancedNotificationManager : Type := mk_Manager {
  (* configuration *)
  escalation_policies : list (string * EscalationPolicy);
  notification_channels : list (NotificationChannel * ChannelImpl);
  suppression_rules : list (string * SuppressionRule);
  (* state *)
  active_alerts : gmap string Alert;
  alert_queue : list string;
  timers : list Timer;
  (* the outside world, as seen from the manager *)
  send_log : list SendCall;
  db_log : list DbCall;
  action_log : list ActionCall
}.

(** ** Field updates *)

Definition set_status (st : AlertStatus) (a : Alert) : Alert :=
  mk_Alert (id a) (title a) (message a) (severity a) (category a) (source a)
    (timestamp a) st (metadata a) (assigned_to a) (acknowledged_by a)
    (acknowledged_at a) (resolved_by a) (resolved_at a) (escalation_level a)
    (alert_suppression_rules a) (dedup_key a) (tags a).

Definition set_escalation_level (lvl : Z) (a : Alert) : Alert :=
  mk_Alert (id a) (title a) (message a) (severity a) (category a) (source a)
    (timestamp a) (status a) (metadata a) (assigned_to a) (acknowledged_by a)
    (acknowledged_at a) (resolved_by a) (resolved_at a) lvl
    (alert_suppression_rules a) (dedup_key a) (tags a).

Definition set_acknowledged (who : string) (at_ : datetime) (a : Alert) : Alert :=
  mk_Alert (id a) (title a) (message a) (severity a) (category a) (source a)
    (timestamp a) (status a) (metadata a) (assigned_to a) (Some who)
    (Some at_) (resolved_by a) (resolved_at a) (escalation_level a)
    (alert_suppression_rules a) (dedup_key a) (tags a).

Definition set_resolved (who : string) (at_ : datetime) (a : Alert) : Alert :=
  mk_Alert (id a) (title a) (message a) (severity a) (category a) (source a)
    (timestamp a) (status a) (metadata a) (assigned_to a) (acknowledged_by a)
    (acknowledged_at a) (Some who) (Some at_) (escalation_level a)
    (alert_suppression_rules a) (dedup_key a) (tags a).

Definition set_metadata (md : gmap string string) (a : Alert) : Alert :=
  mk_Alert (id a) (title a) (message a) (severity a) (category a) (source a)
    (timestamp a) (status a) md (assigned_to a) (acknowledged_by a)
    (acknowledged_at a) (resolved_by a) (resolved_at a) (escalation_level a)
    (alert_suppression_rules a) (dedup_key a) (tags a).

Definition with_active_alerts (m : gmap string Alert)
  (mgr : AdvancedNotificationManager) : AdvancedNotificationManager :=
  mk_Manager (escalation_policies mgr) (notification_channels mgr)
    (suppression_rules mgr) m (alert_queue mgr) (timers mgr) (send_log mgr)
    (db_log mgr) (action_log mgr).

Definition with_alert_queue (q : list string)
  (mgr : AdvancedNotificationManager) : AdvancedNotificationManager :=
  mk_Manager (escalation_policies mgr) (notification_channels mgr)
    (suppression_rules mgr) (active_alerts mgr) q (timers mgr) (send_log mgr)
    (db_log mgr) (action_log mgr).

Definition with_timers (ts : list Timer)
  (mgr : AdvancedNotificationManager) : AdvancedNotificationManager :=
  mk_Manager (escalation_policies mgr) (notification_channels mgr)
    (suppression_rules mgr) (active_alerts mgr) (alert_queue mgr) ts
    (send_log mgr) (db_log mgr) (action_log mgr).

Definition with_send_log (l : list SendCall)
  (mgr : AdvancedNotificationManager) : AdvancedNotificationManager :=
  mk_Manager (escalation_policies mgr) (notification_channels mgr)
    (suppression_rules mgr) (active_alerts mgr) (alert_queue mgr) (timers mgr)
    l (db_log mgr) (action_log mgr).

Definition with_db_log (l : list DbCall)
  (mgr : AdvancedNotificationManager) : AdvancedNotificationManager :=
  mk_Manager (escalation_policies mgr) (notification_channels mgr)
    (suppression_rules mgr) (active_alerts mgr) (alert_queue mgr) (timers mgr)
    (send_log mgr) l (action_log mgr).

Definition with_action_log (l : list ActionCall)
  (mgr : AdvancedNotificationManager) : AdvancedNotificationManager :=
  mk_Manager (escalation_policies mgr) (notification_channels mgr)
    (suppression_rules mgr) (active_alerts mgr) (alert_queue mgr) (timers mgr)
    (send_log mgr) (db_log mgr) l.

(** ** De-duplication *)

(** [existing_alert.status in [NEW, ACKNOWLEDGED, IN_PROGRESS]] *)
Definition dedup_status (st : AlertStatus) : bool :=
  match st with
  | NEW | ACKNOWLEDGED | IN_PROGRESS => true
  | _ => false
  end.

(** [is_duplicate]: [not alert.dedup_key] holds for [None] and for the
    empty string; otherwise the values of [active_alerts] are searched. *)
Definition is_duplicate (mgr : AdvancedNotificationManager) (alert : Alert)
  : bool :=
  match dedup_key alert with
  | None => false
  | Some k =>
      if decide (k = "") then false
      else
        existsb
          (fun existing_alert =>
             bool_decide (dedup_key existing_alert = dedup_key alert)
             && dedup_status (status existing_alert))
          (map snd (map_to_list (active_alerts mgr)))
  end.

(** ** Suppression *)

Definition is_digit (c : ascii) : bool :=
  let n := Z.of_nat (nat_of_ascii c) in (48 <=? n) && (n <=? 57).

Definition digit_value (c : ascii) : Z := Z.of_nat (nat_of_ascii c) - 48.

(** The directive [%H] of [strptime] is the regular expression
    [2[0-3]|[0-1]\d|\d]: the alternatives that match a prefix of [s], in
    the order the matcher tries them, each with the hour read and the rest
    of the input. *)
Definition match_H (s : list ascii) : list (Z * list ascii) :=
  (match s with
   | c1 :: c2 :: r =>
       if Ascii.eqb c1 "2"%char && is_digit c2 && (digit_value c2 <=? 3)
       then [(20 + digit_value c2, r)] else []
   | _ => []
   end) ++
  (match s with
   | c1 :: c2 :: r =>
       if is_digit c1 && (digit_value c1 <=? 1) && is_digit c2
       then [(10 * digit_value c1 + digit_value c2, r)] else []
   | _ => []
   end) ++
  (match s with
   | c1 :: r => if is_digit c1 then [(digit_value c1, r)] else []
   | _ => []
   end).

(** The directive [%M] is [[0-5]\d|\d]. *)
Definition match_M (s : list ascii) : list (Z * list ascii) :=
  (match s with
   | c1 :: c2 :: r =>
       if is_digit c1 && (digit_value c1 <=? 5) && is_digit c2
       then [(10 * digit_value c1 + digit_value c2, r)] else []
   | _ => []
   end) ++
  (match s with
   | c1 :: r => if is_digit c1 then [(digit_value c1, r)] else []
   | _ => []
   end).

(** [datetime.strptime(s, '%H:%M').time()] on ASCII input; [None] stands
    for the [ValueError] raised when the format does not match or when
    unconverted data remains after the first match. *)
Definition strptime_HM (s : string) : option time :=
  let matches :=
    flat_map
      (fun '(h, r1) =>
         match r1 with
         | c :: r2 =>
             if Ascii.eqb c ":"%char
             then map (fun '(m, r3) => (h, m, r3)) (match_M r2)
             else []
         | [] => []
         end)
      (match_H (list_ascii_of_string s)) in
  match matches with
  | (h, m, []) :: _ => Some (mk_time h m 0 0)
  | _ => None
  end.

(** [x in l] for a list of strings *)
Definition py_in (x : string) (l : list string) : bool :=
  existsb (String.eqb x) l.

(** What one turn of the loop of [is_suppressed] does with a rule. *)
Inductive rule_outcome : Type :=
  | RuleReturnsTrue
  | RuleContinue
  | RuleRaises.

Definition check_rule (rule_config : SuppressionRule) (alert : Alert)
  : rule_outcome :=
  match strptime_HM (default "00:00" (start_time rule_config)) with
  | None => RuleRaises
  | Some start_t =>
      match strptime_HM (default "23:59" (end_time rule_config)) with
      | None => RuleRaises
      | Some end_t =>
          let current_time := datetime_time (timestamp alert) in
          if default true (time_based rule_config)
             && negb (time_le start_t current_time
                      && time_le current_time end_t)
          then RuleContinue
          else if match categories rule_config with
                  | Some cs => negb (py_in (category alert) cs)
                  | None => false
                  end
          then RuleContinue
          else if match sources rule_config with
                  | Some ss => negb (py_in (source alert) ss)
                  | None => false
                  end
          then RuleContinue
          else if match severities rule_config with
                  | Some vs => negb (py_in (severity_value (severity alert)) vs)
                  | None => false
                  end
          then RuleContinue
          else RuleReturnsTrue
      end
  end.

Fixpoint is_suppressed_loop (rules : list (string * SuppressionRule))
  (alert : Alert) : bool :=
  match rules with
  | [] => false
  | (rule_name, rule_config) :: rest =>
      match check_rule rule_config alert with
      | RuleReturnsTrue => true
      | RuleContinue | RuleRaises => is_suppressed_loop rest alert
      end
  end.

Definition is_suppressed (mgr : AdvancedNotificationManager) (alert : Alert)
  : bool :=
  is_suppressed_loop (suppression_rules mgr) alert.

(** ** Escalation policies *)

Fixpoint first_policy (policies : list (string * EscalationPolicy))
  (sev : AlertSeverity) : option EscalationPolicy :=
  match policies with
  | [] => None
  | (_, policy) :: rest =>
      if bool_decide (sev ∈ severity_levels policy) then Some policy
      else first_policy rest sev
  end.

Definition get_escalation_policy (mgr : AdvancedNotificationManager)
  (sev : AlertSeverity) : option EscalationPolicy :=
  first_policy (escalation_policies mgr) sev.

(** ** Persistence and transports *)

Definition save_alert (mgr : AdvancedNotificationManager) (alert : Alert)
  : AdvancedNotificationManager :=
  with_db_log (db_log mgr ++ [SaveAlert alert]) mgr.

Definition save_notification (mgr : AdvancedNotificationManager)
  (alert_id : string) (channel : NotificationChannel) (st : string)
  (error_message : option string) : AdvancedNotificationManager :=
  with_db_log
    (db_log mgr ++ [SaveNotification alert_id channel st error_message]) mgr.

Definition record_send (mgr : AdvancedNotificationManager)
  (channel : NotificationChannel) (alert : Alert) (is_escalation : bool)
  : AdvancedNotificationManager :=
  with_send_log
    (send_log mgr ++ [mk_SendCall channel (id alert) is_escalation]) mgr.

(** ** Initial notifications *)

(** The loop of [send_initial_notifications] over the level-0 channels. *)
Fixpoint initial_fan_out (mgr : AdvancedNotificationManager) (alert : Alert)
  (channels : list NotificationChannel) : AdvancedNotificationManager :=
  match channels with
  | [] => mgr
  | channel :: rest =>
      match dict_get (notification_channels mgr) channel with
      | None => initial_fan_out mgr alert rest
      | Some impl =>
          let mgr1 := record_send mgr channel alert false in
          let mgr2 :=
            match impl alert false with
            | SendOk => save_notification mgr1 (id alert) channel "sent" None
            | SendRaises e =>
                save_notification mgr1 (id alert) channel "failed" (Some e)
            end in
          initial_fan_out mgr2 alert rest
      end
  end.

Definition send_initial_notifications (mgr : AdvancedNotificationManager)
  (alert : Alert) : AdvancedNotificationManager :=
  match get_escalation_policy mgr (severity alert) with
  | None => mgr
  | Some policy =>
      initial_fan_out mgr alert
        (default [] (dict_get (policy_notification_channels policy) 0))
  end.

(** ** Escalation timers *)

(** [range(lo, hi)] *)
Definition py_range (lo hi : Z) : list Z :=
  map (fun i => lo + Z.of_nat i) (seq 0 (Z.to_nat (hi - lo))).

(** The due time of a level: [alert.timestamp +
    timedelta(seconds=threshold)], then its [timestamp()], from which the
    delay of the timer is computed.  [None] stands for the exception that
    one of the three raises. *)
Definition escalation_due (alert : Alert) (threshold : Z) : option datetime :=
  match timedelta_of_seconds threshold with
  | None => None
  | Some delta =>
      match datetime_add (timestamp alert) delta with
      | None => None
      | Some escalation_time =>
          if timestamp_returns escalation_time then Some escalation_time
          else None
      end
  end.

(** The loop of [schedule_escalation]: the timers started, and whether the
    loop was left by an exception.  A level that has a threshold gets a
    timer due at [alert.timestamp + timedelta(seconds=threshold)]; when the
    due time of a level cannot be computed the exception leaves the loop,
    the timers of the lower levels stay and no later level gets one.
    Starting the timer thread, and the wait of that thread (the platform
    accepts a delay up to [threading.TIMEOUT_MAX]), belong to the clock. *)
Fixpoint arm_timers_loop (policy : EscalationPolicy) (alert : Alert)
  (levels : list Z) : list Timer * bool :=
  match levels with
  | [] => ([], false)
  | level :: rest =>
      match dict_get (time_thresholds policy) (KLevel level) with
      | Some threshold =>
          match escalation_due alert threshold with
          | Some escalation_time =>
              let (started, raised) := arm_timers_loop policy alert rest in
              (mk_Timer escalation_time (id alert) level :: started, raised)
          | None => ([], true)
          end
      | None => arm_timers_loop policy alert rest
      end
  end.

Definition arm_timers (policy : EscalationPolicy) (alert : Alert)
  (levels : list Z) : list Timer :=
  fst (arm_timers_loop policy alert levels).


(** The manager when [schedule_escalation] returns or raises. *)
Definition schedule_escalation (mgr : AdvancedNotificationManager)
  (alert : Alert) : AdvancedNotificationManager :=
  match get_escalation_policy mgr (severity alert) with
  | None => mgr
  | Some policy =>
      with_timers
        (timers mgr
         ++ arm_timers policy alert
              (py_range 1 (max_escalation_level policy + 1)))
        mgr
  end.

(** [process_alert], on the reference taken from the queue. *)
Definition process_alert (mgr : AdvancedNotificationManager)
  (alert_id : string) : AdvancedNotificationManager :=
  match active_alerts mgr !! alert_id with
  | None => mgr
  | Some alert =>
      schedule_escalation (send_initial_notifications mgr alert) alert
  end.

(** One turn of [notification_worker]: take the next alert of the queue. *)
Definition notification_worker (mgr : AdvancedNotificationManager)
  : AdvancedNotificationManager :=
  match alert_queue mgr with
  | [] => mgr
  | alert_id :: rest => process_alert (with_alert_queue rest mgr) alert_id
  end.

(** ** Escalation *)

(** The loop of [escalate_alert] over the channels of the level. *)
Fixpoint escalation_fan_out (mgr : AdvancedNotificationManager)
  (alert : Alert) (channels : list NotificationChannel)
  : AdvancedNotificationManager :=
  match channels with
  | [] => mgr
  | channel :: rest =>
      match dict_get (notification_channels mgr) channel with
      | None => escalation_fan_out mgr alert rest
      | Some impl =>
          let mgr1 := record_send mgr channel alert true in
          let mgr2 :=
            match impl alert true with
            | SendOk =>
                save_notification mgr1 (id alert) channel "escalated" None
            | SendRaises e => mgr1
            end in
          escalation_fan_out mgr2 alert rest
      end
  end.

(** Every action only writes to the log of the process; the call made is
    kept in [action_log].  [NOTIFY_NEXT_LEVEL] has no branch. *)
Definition execute_escalation_action (mgr : AdvancedNotificationManager)
  (alert : Alert) (action : EscalationAction) : AdvancedNotificationManager :=
  match action with
  | NOTIFY_NEXT_LEVEL => mgr
  | ESCALATE_MANAGER =>
      with_action_log (action_log mgr ++ [EscalateToManager (id alert)]) mgr
  | CALL_ONDUTY =>
      with_action_log (action_log mgr ++ [CallOnDuty (id alert)]) mgr
  | PAGING_SYSTEM =>
      with_action_log (action_log mgr ++ [TriggerPaging (id alert)]) mgr
  | SMS_BROADCAST =>
      with_action_log (action_log mgr ++ [SendSmsBroadcast (id alert)]) mgr
  | AUTO_RESOLUTION =>
      with_action_log (action_log mgr ++ [AutoResolveAlert (id alert)]) mgr
  end.

(** [alert.status in [RESOLVED, CLOSED]] *)
Definition halts_escalation (st : AlertStatus) : bool :=
  match st with
  | RESOLVED | CLOSED => true
  | _ => false
  end.

(** [escalate_alert(alert, level)], where [alert] is the object that
    [active_alerts] holds under [alert_id]; the two assignments to the
    object are written to the store before the channels are called. *)
Definition escalate_alert (mgr : AdvancedNotificationManager)
  (alert_id : string) (level : Z) : AdvancedNotificationManager :=
  match active_alerts mgr !! alert_id with
  | None => mgr
  | Some alert =>
      if halts_escalation (status alert) then mgr
      else
        match get_escalation_policy mgr (severity alert) with
        | None => mgr
        | Some policy =>
            match dict_get (policy_notification_channels policy) level with
            | None => mgr
            | Some channels =>
                let alert' :=
                  set_status ESCALATED (set_escalation_level level alert) in
                let mgr1 :=
                  with_active_alerts
                    (<[alert_id := alert']> (active_alerts mgr)) mgr in
                let mgr2 := escalation_fan_out mgr1 alert' channels in
                match dict_get (escalation_rules policy) level with
                | Some action => execute_escalation_action mgr2 alert' action
                | None => mgr2
                end
            end
        end
  end.

(** ** Acknowledge and resolve *)

Definition acknowledge_alert (mgr : AdvancedNotificationManager)
  (alert_id : string) (acknowledged_by_ : string) (now : datetime)
  : bool * AdvancedNotificationManager :=
  match active_alerts mgr !! alert_id with
  | None => (false, mgr)
  | Some alert =>
      let alert' :=
        set_acknowledged acknowledged_by_ now (set_status ACKNOWLEDGED alert) in
      (true,
       save_alert
         (with_active_alerts (<[alert_id := alert']> (active_alerts mgr)) mgr)
         alert')
  end.

(** [if notes:] holds for a string that is given and not empty. *)
Definition store_notes (notes : option string) (md : gmap string string)
  : gmap string string :=
  match notes with
  | None => md
  | Some n => if decide (n = "") then md else <["resolution_notes" := n]> md
  end.

Definition resolve_alert (mgr : AdvancedNotificationManager)
  (alert_id : string) (resolved_by_ : string) (notes : option string)
  (now : datetime) : bool * AdvancedNotificationManager :=
  match active_alerts mgr !! alert_id with
  | None => (false, mgr)
  | Some alert =>
      let alert1 := set_resolved resolved_by_ now (set_status RESOLVED alert) in
      let alert' := set_metadata (store_notes notes (metadata alert1)) alert1 in
      (true,
       save_alert
         (with_active_alerts (<[alert_id := alert']> (active_alerts mgr)) mgr)
         alert')
  end.

(** ** Creation *)

(** The arguments of [create_alert]; [metadata], [dedup_key] and [tags]
    default to [None]. *)
Record create_args : Type := mk_create_args {
  arg_title : string;
  arg_message : string;
  arg_severity : AlertSeverity;
  arg_category : string;
  arg_source : string;
  arg_metadata : option (gmap string string);
  arg_dedup_key : option string;
  arg_tags : option (list string)
}.

(** The [Alert(...)] built at the start of [create_alert]; [x or d] on an
    optional container keeps [x] unless it is [None] or empty. *)
Definition new_alert (alert_id : string) (now : datetime) (args : create_args)
  : Alert :=
  mk_Alert alert_id (arg_title args) (arg_message args) (arg_severity args)
    (arg_category args) (arg_source args) now NEW
    (default ∅ (arg_metadata args)) None None None None None 0 []
    (arg_dedup_key args) (default [] (arg_tags args)).

(** The body of [create_alert]: the local object [alert] as it is when the
    function returns, and the manager. *)
Definition create_alert_local (mgr : AdvancedNotificationManager)
  (alert_id : string) (now : datetime) (args : create_args)
  : Alert * AdvancedNotificationManager :=
  let alert := new_alert alert_id now args in
  if is_suppressed mgr alert then (set_status SUPPRESSED alert, mgr)
  else if is_duplicate mgr alert then (alert, mgr)
  else
    let mgr1 :=
      with_active_alerts (<[alert_id := alert]> (active_alerts mgr)) mgr in
    let mgr2 := save_alert mgr1 alert in
    (alert, with_alert_queue (alert_queue mgr2 ++ [alert_id]) mgr2).

(** [create_alert] returns the id drawn at its first line. *)
Definition create_alert (mgr : AdvancedNotificationManager)
  (alert_id : string) (now : datetime) (args : create_args)
  : string * AdvancedNotificationManager :=
  (alert_id, snd (create_alert_local mgr alert_id now args)).

(** ** Runs of the manager *)

(** The calls that reach the manager: the public operations, a turn of a
    notification worker, and the callback of an escalation timer. *)
Inductive Op : Type :=
  | OpCreate (alert_id : string) (now : datetime) (args : create_args)
  | OpWorker
  | OpAcknowledge (alert_id : string) (who : string) (now : datetime)
  | OpResolve (alert_id : string) (who : string) (notes : option string)
              (now : datetime)
  | OpEscalate (alert_id : string) (level : Z).

Definition step (mgr : AdvancedNotificationManager) (op : Op)
  : AdvancedNotificationManager :=
  match op with
  | OpCreate alert_id now args => snd (create_alert mgr alert_id now args)
  | OpWorker => notification_worker mgr
  | OpAcknowledge alert_id who now =>
      snd (acknowledge_alert mgr alert_id who now)
  | OpResolve alert_id who notes now =>
      snd (resolve_alert mgr alert_id who notes now)
  | OpEscalate alert_id level => escalate_alert mgr alert_id level
  end.

Definition run (mgr : AdvancedNotificationManager) (ops : list Op)
  : AdvancedNotificationManager :=
  fold_left step ops mgr.

(** The managers met along a run, the first one included. *)
Fixpoint run_trace (mgr : AdvancedNotificationManager) (ops : list Op)
  : list AdvancedNotificationManager :=
  match ops with
  | [] => [mgr]
  | op :: rest => mgr :: run_trace (step mgr op) rest
  end.

(** The callback of a timer: [lambda al=alert, lvl=level:
    self.escalate_alert(al, lvl)]. *)
Definition fire (mgr : AdvancedNotificationManager) (t : Timer)
  : AdvancedNotificationManager :=
  escalate_alert mgr (timer_alert t) (timer_level t).

(** A timer put in a list of timers that is ordered by due time; among
    timers with the same due time the one armed first comes first. *)
Fixpoint insert_by_due (t : Timer) (l : list Timer) : list Timer :=
  match l with
  | [] => [t]
  | u :: rest =>
      if fire_at t <=? fire_at u then t :: l else u :: insert_by_due t rest
  end.

Definition sort_by_due (l : list Timer) : list Timer :=
  fold_right insert_by_due [] l.

(** The clock reaches [now]: the timers that are due are taken out and
    their callbacks run in the order of their due times. *)
Definition advance_clock (mgr : AdvancedNotificationManager) (now : datetime)
  : AdvancedNotificationManager :=
  let due := List.filter (fun t => fire_at t <=? now) (timers mgr) in
  let pending := List.filter (fun t => negb (fire_at t <=? now)) (timers mgr) in
  fold_left fire (sort_by_due due) (with_timers pending mgr).

(** * Vocabulary of the statements *)

(** ** What the loops leave alone *)

(** The part of the manager that a fan-out cannot touch. *)
Definition same_frame (m m' : AdvancedNotificationManager) : Prop :=
  escalation_policies m' = escalation_policies m
  /\ notification_channels m' = notification_channels m
  /\ suppression_rules m' = suppression_rules m
  /\ active_alerts m' = active_alerts m
  /\ alert_queue m' = alert_queue m
  /\ timers m' = timers m
  /\ action_log m' = action_log m.

(** The channels of a list that have an implementation registered. *)
Definition registered (mgr : AdvancedNotificationManager)
  (channels : list NotificationChannel) : list NotificationChannel :=
  List.filter
    (fun c => bool_decide (is_Some (dict_get (notification_channels mgr) c)))
    channels.

(** ** De-duplication (C1) *)

(** The statuses that the specification counts as active. *)
Definition spec_active_status (st : AlertStatus) : bool :=
  match st with
  | NEW | ACKNOWLEDGED | IN_PROGRESS | ESCALATED => true
  | _ => false
  end.

(** The condition of the specification, in its words: the key is not null
    and some alert of the index with an active status has the same key. *)
Definition spec_duplicate_condition (mgr : AdvancedNotificationManager)
  (alert : Alert) : Prop :=
  exists k, dedup_key alert = Some k
    /\ exists i existing, active_alerts mgr !! i = Some existing
         /\ spec_active_status (status existing) = true
         /\ dedup_key existing = Some k.

(** An index that holds one escalated alert with the key ["db-down"], and
    a new alert with the same key. *)
Definition dedup_escalated : Alert :=
  mk_Alert "a1" "db" "down" CRITICAL "database" "pg" 0 ESCALATED ∅
    None None None None None 1 [] (Some "db-down") [].

Definition dedup_mgr : AdvancedNotificationManager :=
  mk_Manager [] [] [] {[ "a1" := dedup_escalated ]} [] [] [] [] [].

Definition dedup_probe : Alert :=
  mk_Alert "a2" "db" "down again" CRITICAL "database" "pg" 60000000 NEW ∅
    None None None None None 0 [] (Some "db-down") [].

(** ** Suppression (C6) *)

(** What a rule asks of an alert, as the code evaluates it: both bounds of
    the window parse; the time of the alert lies in the window unless the
    rule sets [time_based] to a false value; and the category, the source
    and the severity belong to the lists that the rule has. *)
Definition rule_applies (rule_config : SuppressionRule) (alert : Alert)
  : Prop :=
  exists start_t end_t,
    strptime_HM (default "00:00" (start_time rule_config)) = Some start_t
    /\ strptime_HM (default "23:59" (end_time rule_config)) = Some end_t
    /\ (time_based rule_config <> Some false ->
        time_le start_t (datetime_time (timestamp alert)) = true
        /\ time_le (datetime_time (timestamp alert)) end_t = true)
    /\ (forall cs, categories rule_config = Some cs -> In (category alert) cs)
    /\ (forall ss, sources rule_config = Some ss -> In (source alert) ss)
    /\ (forall vs, severities rule_config = Some vs ->
        In (severity_value (severity alert)) vs).

(** The rule of the specification, in its words: the window is checked
    only if the rule declares [time_based], a list is checked only if the
    rule has it, the clauses that are present are joined by "and". *)
Definition spec_rule_matches (rule_config : SuppressionRule) (alert : Alert)
  : bool :=
  match time_based rule_config with
  | Some true =>
      match strptime_HM (default "00:00" (start_time rule_config)),
            strptime_HM (default "23:59" (end_time rule_config)) with
      | Some start_t, Some end_t =>
          time_le start_t (datetime_time (timestamp alert))
          && time_le (datetime_time (timestamp alert)) end_t
      | _, _ => false
      end
  | _ => true
  end
  && match categories rule_config with
     | Some cs => py_in (category alert) cs
     | None => true
     end
  && match sources rule_config with
     | Some ss => py_in (source alert) ss
     | None => true
     end
  && match severities rule_config with
     | Some vs => py_in (severity_value (severity alert)) vs
     | None => true
     end.

(** The rules of the specification are joined by "or". *)
Definition spec_is_suppressed (mgr : AdvancedNotificationManager)
  (alert : Alert) : bool :=
  existsb (fun r => spec_rule_matches (snd r) alert) (suppression_rules mgr).

(** A rule for low-severity alerts with a window from midnight to six
    o'clock and no [time_based] key. *)
Definition night_rule : SuppressionRule :=
  mk_SuppressionRule (Some "00:00") (Some "06:00") None None None
    (Some ["low"]).

Definition night_mgr : AdvancedNotificationManager :=
  mk_Manager [] [] [("night", night_rule)] ∅ [] [] [] [] [].

Definition low_alert_at (now : datetime) : Alert :=
  mk_Alert "a1" "disk" "usage" LOW "system" "server-01" now NEW ∅
    None None None None None 0 [] None [].

(** ** Operations and the alerts they are addressed to *)

(** The alert that a call names: the id drawn for a creation, the id given
    to acknowledge and resolve, the alert captured by a timer. *)
Definition op_alert (op : Op) : option string :=
  match op with
  | OpCreate alert_id _ _ => Some alert_id
  | OpWorker => None
  | OpAcknowledge alert_id _ _ => Some alert_id
  | OpResolve alert_id _ _ _ => Some alert_id
  | OpEscalate alert_id _ => Some alert_id
  end.

(** ** Alerts that are resolved or closed (C3) *)

(** A manager with nothing configured and nothing stored, and the
    arguments of a plain high-severity alert. *)
Definition empty_mgr : AdvancedNotificationManager :=
  mk_Manager [] [] [] ∅ [] [] [] [] [].

Definition high_args : create_args :=
  mk_create_args "memory" "usage above 85%" HIGH "system" "server-01"
    None None None.

(** The alert ["a1"] is created, then resolved a hundred seconds later. *)
Definition resolved_mgr : AdvancedNotificationManager :=
  run empty_mgr
    [OpCreate "a1" 0 high_args;
     OpResolve "a1" "dba" None (timedelta_seconds 100)].

(** ** The escalation level along a run (C4) *)

Definition level_of (alert_id : string) (mgr : AdvancedNotificationManager)
  : option Z :=
  escalation_level <$> active_alerts mgr !! alert_id.

(** The values that the escalation level of an alert takes along a run,
    from the moment the alert is in the index. *)
Definition escalation_levels (alert_id : string)
  (mgr : AdvancedNotificationManager) (ops : list Op) : list Z :=
  omap (level_of alert_id) (run_trace mgr ops).

(** The levels of the timer callbacks of a run that are addressed to an
    alert, in the order in which they fire. *)
Fixpoint fired_levels (alert_id : string) (ops : list Op) : list Z :=
  match ops with
  | [] => []
  | OpEscalate i level :: rest =>
      if decide (i = alert_id) then level :: fired_levels alert_id rest
      else fired_levels alert_id rest
  | _ :: rest => fired_levels alert_id rest
  end.

(** No creation of the run draws the id of the alert again. *)
Definition id_not_drawn (alert_id : string) (op : Op) : Prop :=
  match op with
  | OpCreate i _ _ => i <> alert_id
  | _ => True
  end.

(** A policy with two escalation levels, and a manager whose email and
    Slack channels answer. *)
Definition two_level_policy : EscalationPolicy :=
  mk_EscalationPolicy "two-level" [HIGH]
    [(KLevel 1, 300); (KLevel 2, 600)]
    [(0, [EMAIL]); (1, [SLACK]); (2, [EMAIL])]
    [] 2 None.

Definition always_ok : ChannelImpl := fun _ _ => SendOk.

Definition two_level_mgr : AdvancedNotificationManager :=
  mk_Manager [("two-level", two_level_policy)]
    [(EMAIL, always_ok); (SLACK, always_ok)] [] ∅ [] [] [] [] [].

(** ** Channel failures during a fan-out (C9) *)

(** The channels of a list that are registered and whose [send] returns. *)
Definition delivered (mgr : AdvancedNotificationManager) (alert : Alert)
  (is_escalation : bool) (channels : list NotificationChannel)
  : list NotificationChannel :=
  List.filter
    (fun c =>
       match dict_get (notification_channels mgr) c with
       | Some impl =>
           match impl alert is_escalation with
           | SendOk => true
           | SendRaises _ => false
           end
       | None => false
       end)
    channels.

(** The record that [send_initial_notifications] persists for a
    registered channel: ["sent"], or ["failed"] with the error. *)
Definition initial_record (mgr : AdvancedNotificationManager) (alert : Alert)
  (channel : NotificationChannel) : DbCall :=
  match dict_get (notification_channels mgr) channel with
  | Some impl =>
      match impl alert false with
      | SendOk => SaveNotification (id alert) channel "sent" None
      | SendRaises e => SaveNotification (id alert) channel "failed" (Some e)
      end
  | None => SaveNotification (id alert) channel "sent" None
  end.

(** A manager whose Slack channel always raises and whose email channel
    always returns; the policy sends to both at level 0 and at level 1. *)
Definition slack_down : ChannelImpl :=
  fun _ _ => SendRaises "HTTP 503".

Definition both_channels_policy : EscalationPolicy :=
  mk_EscalationPolicy "both" [HIGH] [(KLevel 1, 300)]
    [(0, [SLACK; EMAIL]); (1, [SLACK; EMAIL])] [] 1 None.

Definition flaky_mgr : AdvancedNotificationManager :=
  mk_Manager [("both", both_channels_policy)]
    [(SLACK, slack_down); (EMAIL, always_ok)] [] ∅ [] [] [] [] [].

(** ** The scenarios of the specification, run on the model *)

(** Scenario 2: the policy for high severity has [time_thresholds={1: 300}]
    and [notification_channels={0: [EMAIL], 1: [SLACK, EMAIL]}]; both
    channels answer. *)
Definition high_policy : EscalationPolicy :=
  mk_EscalationPolicy "high" [HIGH] [(KLevel 1, 300)]
    [(0, [EMAIL]); (1, [SLACK; EMAIL])] [] 5 None.

Definition scenario_mgr : AdvancedNotificationManager :=
  mk_Manager [("high", high_policy)]
    [(EMAIL, always_ok); (SLACK, always_ok)] [] ∅ [] [] [] [] [].

(** The alert ["a1"] is created at time 0 and taken by a worker. *)
Definition scenario_processed : AdvancedNotificationManager :=
  run scenario_mgr [OpCreate "a1" 0 high_args; OpWorker].

Definition a1_new : Alert := new_alert "a1" 0 high_args.

Definition a1_resolved : Alert :=
  set_resolved "dba" (timedelta_seconds 100) (set_status RESOLVED a1_new).

(** An alert with a de-duplication key, and the manager that holds it. *)
Definition keyed_args : create_args :=
  mk_create_args "db" "connection lost" HIGH "database" "pg"
    None (Some "db-down") None.

Definition keyed_mgr : AdvancedNotificationManager :=
  run scenario_mgr [OpCreate "a1" 0 keyed_args; OpWorker].

Definition low_args : create_args :=
  mk_create_args "disk" "usage" LOW "system" "server-01" None None None.

(** ** What a run keeps *)

(** The fields of an alert that no operation assigns after creation. *)
Definition same_identity (a a' : Alert) : Prop :=
  id a' = id a /\ title a' = title a /\ message a' = message a
  /\ severity a' = severity a /\ category a' = category a
  /\ source a' = source a /\ timestamp a' = timestamp a
  /\ assigned_to a' = assigned_to a
  /\ alert_suppression_rules a' = alert_suppression_rules a
  /\ dedup_key a' = dedup_key a /\ tags a' = tags a.

(** Every alert of the index is stored under its own id. *)
Definition index_well_keyed (mgr : AdvancedNotificationManager) : Prop :=
  forall i a, active_alerts mgr !! i = Some a -> id a = i.

(** The queue and the timers only refer to alerts of the index. *)
Definition references_valid (mgr : AdvancedNotificationManager) : Prop :=
  Forall (fun i => is_Some (active_alerts mgr !! i)) (alert_queue mgr)
  /\ Forall (fun t => is_Some (active_alerts mgr !! timer_alert t))
       (timers mgr).

(** A row of the [alerts] table as the manager writes it. *)
Definition alert_row_ok (call : DbCall) : Prop :=
  match call with
  | SaveAlert a =>
      status a = NEW \/ status a = ACKNOWLEDGED \/ status a = RESOLVED
  | SaveNotification _ _ _ _ => True
  end.

(** A row of the [notifications] table as the manager writes it. *)
Definition notification_row_ok (call : DbCall) : Prop :=
  match call with
  | SaveAlert _ => True
  | SaveNotification _ _ st err =>
      (st = "sent" /\ err = None)
      \/ (st = "failed" /\ is_Some err)
      \/ (st = "escalated" /\ err = None)
  end.

(** What a call may append to the three logs. *)
Definition logs_extend (m m' : AdvancedNotificationManager) : Prop :=
  (exists sends, send_log m' = send_log m ++ sends)
  /\ (exists calls, db_log m' = db_log m ++ calls
        /\ Forall alert_row_ok calls /\ Forall notification_row_ok calls)
  /\ (exists actions, action_log m' = action_log m ++ actions).

(** ** The periodic escalation pass *)

(** [max(l, key=...)]: the first element whose key is the greatest; [None]
    stands for the [ValueError] raised on an empty list. *)
Definition py_max_by {A : Type} (key : A -> Z) (l : list A) : option A :=
  match l with
  | [] => None
  | x :: rest =>
      Some (fold_left (fun best y => if key best <? key y then y else best)
              rest x)
  end.

(** [policy.time_thresholds.get(s, 0)] for a severity [s] *)
Definition severity_threshold (policy : EscalationPolicy) (s : AlertSeverity)
  : Z :=
  default 0 (dict_get (time_thresholds policy) (KSeverity s)).

(** How a pass of [process_escalations] ends: at the end of the loop, or
    with an exception that leaves the loop. *)
Inductive pass_result : Type :=
  | PassDone (mgr : AdvancedNotificationManager)
  | PassRaised (mgr : AdvancedNotificationManager).

(** One turn of the loop of [process_escalations].  [time_elapsed] is in
    seconds and the threshold too: the comparison is made here on
    microseconds, exactly, where the source compares the float that
    [total_seconds()] returns (it rounds for ages beyond some 285 years). *)
Definition check_escalation (mgr : AdvancedNotificationManager)
  (current_time : datetime) (alert : Alert) : pass_result :=
  if halts_escalation (status alert) then PassDone mgr
  else
    match get_escalation_policy mgr (severity alert) with
    | None => PassDone mgr
    | Some policy =>
        match py_max_by (severity_threshold policy) (severity_levels policy)
        with
        | None => PassRaised mgr
        | Some s =>
            match dict_get (time_thresholds policy) (KSeverity s) with
            | None => PassDone mgr
            | Some max_escalation_time =>
                if negb (max_escalation_time =? 0)
                   && (timedelta_seconds max_escalation_time
                       <? current_time - timestamp alert)
                then
                  match dict_get (escalation_rules policy)
                          (max_escalation_level policy) with
                  | Some last_action =>
                      PassDone (execute_escalation_action mgr alert last_action)
                  | None => PassDone mgr
                  end
                else PassDone mgr
            end
        end
    end.

(** The loop of [process_escalations] over a snapshot of the alerts. *)
Fixpoint process_escalations_loop (mgr : AdvancedNotificationManager)
  (current_time : datetime) (alerts : list Alert) : pass_result :=
  match alerts with
  | [] => PassDone mgr
  | alert :: rest =>
      match check_escalation mgr current_time alert with
      | PassDone mgr' => process_escalations_loop mgr' current_time rest
      | PassRaised mgr' => PassRaised mgr'
      end
  end.

(** [process_escalations]: the snapshot is [list(self.active_alerts.values())].
    The source visits the alerts in the order of their insertion; the
    index of the model is not ordered, so the properties of the pass are
    stated for the loop over any list of alerts. *)
Definition process_escalations (mgr : AdvancedNotificationManager)
  (current_time : datetime) : pass_result :=
  process_escalations_loop mgr current_time
    (map snd (map_to_list (active_alerts mgr))).

Definition pass_manager (r : pass_result) : AdvancedNotificationManager :=
  match r with
  | PassDone mgr => mgr
  | PassRaised mgr => mgr
  end.

(** Everything of the manager but the log of the actions. *)
Definition same_but_actions (m m' : AdvancedNotificationManager) : Prop :=
  escalation_policies m' = escalation_policies m
  /\ notification_channels m' = notification_channels m
  /\ suppression_rules m' = suppression_rules m
  /\ active_alerts m' = active_alerts m
  /\ alert_queue m' = alert_queue m
  /\ timers m' = timers m
  /\ send_log m' = send_log m
  /\ db_log m' = db_log m.

(** ** More configurations *)

(** The emergency policy of [setup_escalation_policies]; its thresholds
    are keyed by severities. *)
Definition emergency_policy : EscalationPolicy :=
  mk_EscalationPolicy "emergency" [EMERGENCY; CRITICAL]
    [(KSeverity EMERGENCY, 60); (KSeverity CRITICAL, 180)]
    [(0, [SMS; TELEGRAM; PUSH_NOTIFICATION]);
     (1, [SLACK; DISCORD]);
     (2, [EMAIL; WEBHOOK])]
    [(1, CALL_ONDUTY); (2, PAGING_SYSTEM); (3, SMS_BROADCAST)]
    3 (Some 43200).

Definition emergency_mgr : AdvancedNotificationManager :=
  mk_Manager [("emergency", emergency_policy)]
    [(EMAIL, always_ok); (SLACK, always_ok)] [] ∅ [] [] [] [] [].

Definition emergency_alert : Alert :=
  mk_Alert "e1" "outage" "site down" EMERGENCY "availability" "probe" 0 NEW ∅
    None None None None None 0 [] None [].

(** A rule that would match every alert, were its [start_time] a time. *)
Definition malformed_rule : SuppressionRule :=
  mk_SuppressionRule (Some "25:00") None (Some false) None None None.

(** The rule [{}]. *)
Definition catch_all_rule : SuppressionRule :=
  mk_SuppressionRule None None None None None None.

(** The calls of a small run: the alert ["a1"] is created, notified,
    escalated, acknowledged and resolved, and ["a2"] is created. *)
Definition small_run : list Op :=
  [OpCreate "a1" 0 high_args; OpWorker;
   OpEscalate "a1" 1;
   OpAcknowledge "a1" "alice" (timedelta_seconds 400);
   OpCreate "a2" (timedelta_seconds 500) keyed_args;
   OpResolve "a1" "alice" (Some "fixed") (timedelta_seconds 600);
   OpWorker].

(** ** Arming the escalation timers (C2) *)

(** A policy with three levels whose second threshold does not fit a
    [timedelta]. *)
Definition overflow_policy : EscalationPolicy :=
  mk_EscalationPolicy "overflow" [HIGH]
    [(KLevel 1, 300); (KLevel 2, 1000000000000000); (KLevel 3, 600)]
    [(0, [EMAIL]); (1, [SLACK]); (2, [EMAIL]); (3, [SLACK])]
    [] 3 None.

Definition overflow_mgr : AdvancedNotificationManager :=
  mk_Manager [("overflow", overflow_policy)]
    [(EMAIL, always_ok); (SLACK, always_ok)] [] ∅ [] [] [] [] [].

(** * Properties *)

(** ** What the loops leave alone *)

Lemma same_frame_refl m : same_frame m m.
Proof. repeat split. Qed.

Lemma same_frame_trans m1 m2 m3 :
  same_frame m1 m2 -> same_frame m2 m3 -> same_frame m1 m3.
Proof.
  unfold same_frame. intros (?&?&?&?&?&?&?) (?&?&?&?&?&?&?).
  repeat split; congruence.
Qed.

Lemma initial_fan_out_frame channels : forall mgr alert,
  same_frame mgr (initial_fan_out mgr alert channels).
Proof.
  induction channels as [|c rest IH]; intros mgr alert; simpl.
  - apply same_frame_refl.
  - destruct (dict_get (notification_channels mgr) c) as [impl|]; [|apply IH].
    eapply same_frame_trans; [|apply IH].
    destruct (impl alert false); repeat split.
Qed.

Lemma escalation_fan_out_frame channels : forall mgr alert,
  same_frame mgr (escalation_fan_out mgr alert channels).
Proof.
  induction channels as [|c rest IH]; intros mgr alert; simpl.
  - apply same_frame_refl.
  - destruct (dict_get (notification_channels mgr) c) as [impl|]; [|apply IH].
    eapply same_frame_trans; [|apply IH].
    destruct (impl alert true); repeat split.
Qed.

Lemma send_initial_notifications_frame mgr alert :
  same_frame mgr (send_initial_notifications mgr alert).
Proof.
  unfold send_initial_notifications.
  destruct (get_escalation_policy mgr (severity alert));
    [apply initial_fan_out_frame | apply same_frame_refl].
Qed.

Lemma registered_same m m' channels :
  notification_channels m' = notification_channels m ->
  registered m' channels = registered m channels.
Proof. intros H. unfold registered. by rewrite H. Qed.

Lemma escalation_fan_out_send_log channels : forall mgr alert,
  send_log (escalation_fan_out mgr alert channels)
  = send_log mgr
    ++ map (fun c => mk_SendCall c (id alert) true) (registered mgr channels).
Proof.
  induction channels as [|c rest IH]; intros mgr alert; simpl.
  - by rewrite app_nil_r.
  - destruct (dict_get (notification_channels mgr) c) as [impl|] eqn:Hc.
    + rewrite bool_decide_eq_true_2 by eauto. rewrite IH. simpl.
      assert (Hreg : forall m', notification_channels m'
                                = notification_channels mgr ->
                                registered m' rest = registered mgr rest).
      { intros m' Hm'. unfold registered. by rewrite Hm'. }
      destruct (impl alert true); rewrite Hreg by reflexivity;
        simpl; by rewrite <- app_assoc.
    + rewrite bool_decide_eq_false_2 by (intros [? ?]; congruence).
      apply IH.
Qed.

Lemma execute_escalation_action_frame mgr alert action :
  escalation_policies (execute_escalation_action mgr alert action)
  = escalation_policies mgr
  /\ notification_channels (execute_escalation_action mgr alert action)
     = notification_channels mgr
  /\ suppression_rules (execute_escalation_action mgr alert action)
     = suppression_rules mgr
  /\ active_alerts (execute_escalation_action mgr alert action)
     = active_alerts mgr
  /\ alert_queue (execute_escalation_action mgr alert action)
     = alert_queue mgr
  /\ timers (execute_escalation_action mgr alert action) = timers mgr
  /\ send_log (execute_escalation_action mgr alert action) = send_log mgr
  /\ db_log (execute_escalation_action mgr alert action) = db_log mgr.
Proof. destruct action; repeat split. Qed.

(** ** Membership in [range] *)

Lemma py_range_In lo hi x : In x (py_range lo hi) <-> lo <= x < hi.
Proof.
  unfold py_range. rewrite in_map_iff. split.
  - intros (i & <- & Hi). apply in_seq in Hi. lia.
  - intros Hx. exists (Z.to_nat (x - lo)). split; [lia|].
    apply in_seq. lia.
Qed.

Lemma py_range_sorted lo hi : StronglySorted Z.lt (py_range lo hi).
Proof.
  unfold py_range. generalize (Z.to_nat (hi - lo)) as n. intros n.
  assert (H : forall start, StronglySorted Z.lt
                              (map (fun i => lo + Z.of_nat i) (seq start n))).
  { induction n as [|n IH]; intros start; simpl; constructor; [apply IH|].
    apply List.Forall_forall. intros x Hx.
    apply in_map_iff in Hx as (i & <- & Hi). apply in_seq in Hi. lia. }
  apply H.
Qed.

Lemma sorted_split_bounds (pre post : list Z) (x : Z) :
  StronglySorted Z.lt (pre ++ x :: post) ->
  (forall y, In y pre -> y < x) /\ (forall y, In y post -> x < y).
Proof.
  induction pre as [|a pre IH]; simpl; intros Hs.
  - apply StronglySorted_inv in Hs as [_ Hall].
    rewrite List.Forall_forall in Hall. split; [tauto|done].
  - apply StronglySorted_inv in Hs as [Hs Hall].
    destruct (IH Hs) as [Hpre Hpost]. split; [|done].
    intros y [<-|Hy]; [|by apply Hpre].
    rewrite List.Forall_forall in Hall. apply Hall.
    apply in_or_app. right. by left.
Qed.

(** ** The loop that arms the timers *)

Lemma escalation_due_Some alert threshold due :
  escalation_due alert threshold = Some due ->
  due = timestamp alert + timedelta_seconds threshold.
Proof.
  unfold escalation_due, timedelta_of_seconds, datetime_add.
  destruct (_ && _); [|done].
  destruct (_ && _); [|done].
  destruct (timestamp_returns _); [|done]. by intros [= <-].
Qed.

Lemma arm_timers_cons policy alert level rest :
  arm_timers policy alert (level :: rest)
  = match dict_get (time_thresholds policy) (KLevel level) with
    | Some threshold =>
        match escalation_due alert threshold with
        | Some due => mk_Timer due (id alert) level
                      :: arm_timers policy alert rest
        | None => []
        end
    | None => arm_timers policy alert rest
    end.
Proof.
  unfold arm_timers. simpl.
  destruct (dict_get (time_thresholds policy) (KLevel level)) as [th|]; [|done].
  destruct (escalation_due alert th); [|done].
  by destruct (arm_timers_loop policy alert rest).
Qed.

(** A timer is started for a level exactly when the level has a threshold
    whose due time can be computed and no earlier level of the loop
    raised. *)
Lemma arm_timers_In_iff policy alert levels t :
  In t (arm_timers policy alert levels)
  <-> exists pre level post threshold due,
        levels = pre ++ level :: post
        /\ dict_get (time_thresholds policy) (KLevel level) = Some threshold
        /\ escalation_due alert threshold = Some due
        /\ t = mk_Timer due (id alert) level
        /\ (forall l th, In l pre ->
              dict_get (time_thresholds policy) (KLevel l) = Some th ->
              is_Some (escalation_due alert th)).
Proof.
  induction levels as [|l rest IH].
  - split; [done|]. intros (pre & ? & ? & ? & ? & Hnil & _).
    by destruct pre.
  - rewrite arm_timers_cons.
    destruct (dict_get (time_thresholds policy) (KLevel l)) as [th|] eqn:Hth.
    + destruct (escalation_due alert th) as [due|] eqn:Hdue.
      * split.
        -- intros [<-|Hin].
           ++ exists [], l, rest, th, due. do 4 (split; [done|]).
              intros ? ? [].
           ++ apply IH in Hin
                as (pre & level & post & th' & due' & -> & ? & ? & ? & Hpre).
              exists (l :: pre), level, post, th', due'.
              do 4 (split; [done|]).
              intros l0 th0 [<-|Hl0] Hth0; [|by eapply Hpre].
              rewrite Hth in Hth0. injection Hth0 as <-. by rewrite Hdue.
        -- intros (pre & level & post & th' & due' & Hl & Hth' & Hdue' & -> & Hpre).
           destruct pre as [|l0 pre]; simpl in Hl; injection Hl as <- Hrest.
           ++ left. congruence.
           ++ right. apply IH. exists pre, level, post, th', due'.
              do 4 (split; [done|]).
              intros l1 th1 Hl1. apply Hpre. by right.
      * split; [done|].
        intros (pre & level & post & th' & due' & Hl & Hth' & Hdue' & _ & Hpre).
        destruct pre as [|l0 pre]; simpl in Hl; injection Hl as <- Hrest.
        -- congruence.
        -- destruct (Hpre l th (or_introl eq_refl) Hth) as [? Hsome].
           congruence.
    + rewrite IH. split.
      * intros (pre & level & post & th' & due' & -> & ? & ? & ? & Hpre).
        exists (l :: pre), level, post, th', due'. do 4 (split; [done|]).
        intros l0 th0 [<-|Hl0] Hth0; [congruence|by eapply Hpre].
      * intros (pre & level & post & th' & due' & Hl & Hth' & Hdue' & -> & Hpre).
        destruct pre as [|l0 pre]; simpl in Hl; injection Hl as <- Hrest.
        -- congruence.
        -- exists pre, level, post, th', due'. do 4 (split; [done|]).
           intros l1 th1 Hl1. apply Hpre. by right.
Qed.

(** The same over [range(lo, hi)]: the levels that come before a level in
    the loop are the levels below it. *)
Lemma arm_timers_range policy alert lo hi t :
  In t (arm_timers policy alert (py_range lo hi))
  <-> exists level threshold,
        lo <= level < hi
        /\ dict_get (time_thresholds policy) (KLevel level) = Some threshold
        /\ (forall l th, lo <= l <= level ->
              dict_get (time_thresholds policy) (KLevel l) = Some th ->
              is_Some (escalation_due alert th))
        /\ t = mk_Timer (timestamp alert + timedelta_seconds threshold)
                 (id alert) level.
Proof.
  rewrite arm_timers_In_iff. split.
  - intros (pre & level & post & th & due & Hsplit & Hth & Hdue & -> & Hpre).
    pose proof (py_range_sorted lo hi) as Hsorted. rewrite Hsplit in Hsorted.
    destruct (sorted_split_bounds pre post level Hsorted) as [Hlt Hgt].
    assert (Hlevel : lo <= level < hi).
    { apply py_range_In. rewrite Hsplit. apply in_or_app. right. by left. }
    exists level, th. split; [done|]. split; [done|]. split.
    + intros l th' Hl Hth'.
      destruct (decide (l = level)) as [->|Hne].
      * rewrite Hth in Hth'. injection Hth' as <-. by rewrite Hdue.
      * apply (Hpre l th'); [|done].
        assert (Hin : In l (py_range lo hi)) by (apply py_range_In; lia).
        rewrite Hsplit in Hin. apply in_app_or in Hin as [Hin|[Hin|Hin]];
          [done|congruence|].
        apply Hgt in Hin. lia.
    + by rewrite (escalation_due_Some alert th due Hdue).
  - intros (level & th & Hlevel & Hth & Hbelow & ->).
    assert (Hin : In level (py_range lo hi)) by (by apply py_range_In).
    apply in_split in Hin as (pre & post & Hsplit).
    pose proof (py_range_sorted lo hi) as Hsorted. rewrite Hsplit in Hsorted.
    destruct (sorted_split_bounds pre post level Hsorted) as [Hlt _].
    destruct (Hbelow level th ltac:(lia) Hth) as [due Hdue].
    exists pre, level, post, th, due. do 3 (split; [done|]). split.
    + by rewrite (escalation_due_Some alert th due Hdue).
    + intros l th' Hl Hth'. apply (Hbelow l th'); [|done].
      assert (Hin : In l (py_range lo hi))
        by (rewrite Hsplit; apply in_or_app; by left).
      apply py_range_In in Hin. apply Hlt in Hl. lia.
Qed.

(** ** De-duplication (C1) *)

Lemma is_duplicate_values mgr alert k :
  dedup_key alert = Some k -> k <> "" ->
  is_duplicate mgr alert = true <->
  exists i existing, active_alerts mgr !! i = Some existing
    /\ dedup_key existing = Some k
    /\ dedup_status (status existing) = true.
Proof.
  intros Hk Hne. unfold is_duplicate. rewrite Hk.
  destruct (decide (k = "")) as [|_]; [done|].
  rewrite existsb_exists. split.
  - intros (e & Hin & Hb). apply in_map_iff in Hin as ([i e'] & <- & Hin).
    apply list_elem_of_In, elem_of_map_to_list in Hin.
    apply andb_true_iff in Hb as [Hkey Hst].
    apply bool_decide_eq_true in Hkey. simpl in *. eauto.
  - intros (i & e & Hi & Hkey & Hst). exists e. split.
    + apply in_map_iff. exists (i, e). split; [done|].
      by apply list_elem_of_In, elem_of_map_to_list.
    + apply andb_true_iff. split; [|done].
      apply bool_decide_eq_true. congruence.
Qed.

(** C1, the claim as stated fails: the key of the new alert matches an
    alert of the index whose status is escalated, so the condition of the
    specification holds, and [is_duplicate] answers [False]. *)
Lemma is_duplicate_misses_escalated :
  spec_duplicate_condition dedup_mgr dedup_probe
  /\ is_duplicate dedup_mgr dedup_probe = false.
Proof.
  split; [|by vm_compute].
  exists "db-down". split; [done|].
  exists "a1", dedup_escalated. by vm_compute.
Qed.

(** C1, amended: [is_duplicate] answers [True] exactly when the key of the
    alert is neither null nor the empty string and some alert of the
    active-alert index whose status is new, acknowledged or in_progress has
    the same key.  An alert with a null key is never a duplicate; an alert
    whose key matches only escalated alerts is not one either. *)
Theorem is_duplicate_iff (mgr : AdvancedNotificationManager) (alert : Alert) :
  is_duplicate mgr alert = true <->
  exists k, dedup_key alert = Some k /\ k <> ""
    /\ exists i existing, active_alerts mgr !! i = Some existing
         /\ dedup_key existing = Some k
         /\ (status existing = NEW \/ status existing = ACKNOWLEDGED
             \/ status existing = IN_PROGRESS).
Proof.
  assert (Hst : forall st, dedup_status st = true
                           <-> st = NEW \/ st = ACKNOWLEDGED \/ st = IN_PROGRESS).
  { intros st. destruct st; simpl; intuition congruence. }
  split.
  - intros Hdup. destruct (dedup_key alert) as [k|] eqn:Hk.
    + destruct (decide (k = "")) as [->|Hne].
      * unfold is_duplicate in Hdup. by rewrite Hk in Hdup.
      * exists k. split; [done|]. split; [done|].
        destruct (proj1 (is_duplicate_values mgr alert k Hk Hne) Hdup)
          as (i & e & Hi & Hkey & Hs).
        exists i, e. by rewrite <- Hst.
    + unfold is_duplicate in Hdup. by rewrite Hk in Hdup.
  - intros (k & Hk & Hne & i & e & Hi & Hkey & Hs).
    apply (is_duplicate_values mgr alert k Hk Hne).
    exists i, e. by rewrite Hst.
Qed.

(** ** Suppression (C6) *)

Lemma py_in_In x l : py_in x l = true <-> In x l.
Proof.
  unfold py_in. rewrite existsb_exists. split.
  - intros (y & Hy & Heq). apply String.eqb_eq in Heq. by subst.
  - intros Hx. exists x. split; [done|]. apply String.eqb_refl.
Qed.

Lemma optional_clause_passes (o : option (list string)) (x : string) :
  match o with Some l => negb (py_in x l) | None => false end = false
  <-> forall l, o = Some l -> In x l.
Proof.
  destruct o as [l|]; split.
  - intros H l' [= <-]. apply py_in_In. by apply negb_false_iff.
  - intros H. apply negb_false_iff, py_in_In. by apply H.
  - intros _ l' [=].
  - done.
Qed.

Lemma window_clause_passes (tb : option bool) (l1 l2 : bool) :
  default true tb && negb (l1 && l2) = false
  <-> (tb <> Some false -> l1 = true /\ l2 = true).
Proof.
  destruct tb as [[|]|], l1, l2; simpl; split; try done;
    try (intros H; by destruct H); intros [=].
Qed.

Lemma four_guards (b1 b2 b3 b4 : bool) :
  (if b1 then RuleContinue
   else if b2 then RuleContinue
   else if b3 then RuleContinue
   else if b4 then RuleContinue
   else RuleReturnsTrue) = RuleReturnsTrue
  <-> b1 = false /\ b2 = false /\ b3 = false /\ b4 = false.
Proof. destruct b1, b2, b3, b4; simpl; split; try done; intros (?&?&?&?); done. Qed.

Lemma check_rule_returns_true rule_config alert :
  check_rule rule_config alert = RuleReturnsTrue
  <-> rule_applies rule_config alert.
Proof.
  unfold check_rule, rule_applies.
  destruct (strptime_HM (default "00:00" (start_time rule_config)))
    as [start_t|]; [|split; [done|intros (?&?&[=]&_)]].
  destruct (strptime_HM (default "23:59" (end_time rule_config)))
    as [end_t|]; [|split; [done|intros (?&?&_&[=]&_)]].
  cbv zeta. rewrite four_guards, window_clause_passes.
  rewrite !optional_clause_passes. split.
  - intros (Hw & Hc & Hs & Hv). by exists start_t, end_t.
  - by intros (s & e & [= <-] & [= <-] & Hw & Hc & Hs & Hv).
Qed.

Lemma is_suppressed_loop_iff rules alert :
  is_suppressed_loop rules alert = true
  <-> exists rule_name rule_config,
        In (rule_name, rule_config) rules /\ rule_applies rule_config alert.
Proof.
  induction rules as [|[n rc] rest IH]; simpl.
  - split; [done|]. by intros (?&?&[]&_).
  - destruct (check_rule rc alert) eqn:Hrc.
    + split; [|done]. intros _. exists n, rc. split; [by left|].
      by apply check_rule_returns_true.
    + rewrite IH. split.
      * intros (n' & rc' & Hin & Happ). exists n', rc'. split; [by right|done].
      * intros (n' & rc' & [[= <- <-]|Hin] & Happ); [|by eauto].
        apply check_rule_returns_true in Happ. congruence.
    + rewrite IH. split.
      * intros (n' & rc' & Hin & Happ). exists n', rc'. split; [by right|done].
      * intros (n' & rc' & [[= <- <-]|Hin] & Happ); [|by eauto].
        apply check_rule_returns_true in Happ. congruence.
Qed.

(** C6, the claim as stated fails: the rule has no [time_based] flag, and
    the window is applied all the same.  The alert of three o'clock is
    suppressed, the alert of noon is not, and the rule of the
    specification would suppress both. *)
Lemma is_suppressed_window_without_flag :
  time_based night_rule = None
  /\ is_suppressed night_mgr (low_alert_at (timedelta_seconds (3 * 3600))) = true
  /\ is_suppressed night_mgr (low_alert_at (timedelta_seconds (12 * 3600))) = false
  /\ spec_is_suppressed night_mgr (low_alert_at (timedelta_seconds (12 * 3600)))
     = true.
Proof. by vm_compute. Qed.

(** C6, amended: [is_suppressed] answers [True] exactly when some
    configured rule applies, where a rule applies when its two window
    bounds parse (a rule that makes the check raise is passed over), the
    time of the alert lies in the window (defaults 00:00 and 23:59) unless
    the rule sets [time_based] to a false value (a rule without the flag
    is time based), and the category, source and severity of the alert
    belong to the lists that the rule has; an absent list is skipped, the
    clauses of a rule are joined by "and" and the rules by "or". *)
Theorem is_suppressed_iff (mgr : AdvancedNotificationManager) (alert : Alert) :
  is_suppressed mgr alert = true
  <-> exists rule_name rule_config,
        In (rule_name, rule_config) (suppression_rules mgr)
        /\ rule_applies rule_config alert.
Proof. apply is_suppressed_loop_iff. Qed.

(** ** The shape of one escalation *)

(** Either [escalate_alert] returns at one of its guards and the manager is
    the same, or the object is updated in the store and nothing else of
    the index changes. *)
Lemma escalate_alert_cases mgr alert_id level :
  escalate_alert mgr alert_id level = mgr
  \/ exists alert,
       active_alerts mgr !! alert_id = Some alert
       /\ halts_escalation (status alert) = false
       /\ active_alerts (escalate_alert mgr alert_id level)
          = <[alert_id := set_status ESCALATED
                            (set_escalation_level level alert)]>
              (active_alerts mgr).
Proof.
  unfold escalate_alert.
  destruct (active_alerts mgr !! alert_id) as [alert|] eqn:Ha; [|by left].
  destruct (halts_escalation (status alert)) eqn:Hh; [by left|].
  destruct (get_escalation_policy mgr (severity alert)) as [policy|];
    [|by left].
  destruct (dict_get (policy_notification_channels policy) level)
    as [channels|]; [|by left].
  right. exists alert. split; [done|]. split; [done|].
  set (alert' := set_status ESCALATED (set_escalation_level level alert)).
  set (mgr1 := with_active_alerts _ mgr).
  destruct (escalation_fan_out_frame channels mgr1 alert')
    as (_ & _ & _ & Hact & _).
  destruct (dict_get (escalation_rules policy) level) as [action|].
  - destruct (execute_escalation_action_frame
                (escalation_fan_out mgr1 alert' channels) alert' action)
      as (_ & _ & _ & Hact' & _).
    by rewrite Hact', Hact.
  - by rewrite Hact.
Qed.

(** ** Escalation of an alert that is resolved or closed (C5) *)

Lemma resolve_alert_stored mgr alert_id who notes now alert :
  active_alerts mgr !! alert_id = Some alert ->
  exists alert',
    active_alerts (snd (resolve_alert mgr alert_id who notes now)) !! alert_id
    = Some alert'
    /\ status alert' = RESOLVED
    /\ escalation_level alert' = escalation_level alert.
Proof.
  intros Ha. unfold resolve_alert. rewrite Ha. simpl.
  eexists. split; [apply lookup_insert_eq|]. by split.
Qed.

Lemma escalate_alert_halted mgr alert_id alert level :
  active_alerts mgr !! alert_id = Some alert ->
  halts_escalation (status alert) = true ->
  escalate_alert mgr alert_id level = mgr.
Proof. intros Ha Hh. unfold escalate_alert. by rewrite Ha, Hh. Qed.

(** C5: [escalate_alert] on an alert whose status is resolved or closed
    returns the manager as it was: no channel is called, nothing is
    persisted, the alert is the same.  Hence, once [resolve_alert] has
    returned, the callback of any timer still pending for the alert
    changes nothing. *)
Theorem escalate_alert_terminal_noop
  (mgr : AdvancedNotificationManager) (alert_id : string) (alert : Alert)
  (level : Z) :
  active_alerts mgr !! alert_id = Some alert ->
  (status alert = RESOLVED \/ status alert = CLOSED ->
   escalate_alert mgr alert_id level = mgr)
  /\ (forall who notes now t,
        timer_alert t = alert_id ->
        let resolved := snd (resolve_alert mgr alert_id who notes now) in
        fire resolved t = resolved
        /\ send_log (fire resolved t) = send_log resolved
        /\ db_log (fire resolved t) = db_log resolved).
Proof.
  intros Ha. split.
  - intros Hst. apply (escalate_alert_halted mgr alert_id alert level Ha).
    by destruct Hst as [-> | ->].
  - intros who notes now t Ht resolved.
    destruct (resolve_alert_stored mgr alert_id who notes now alert Ha)
      as (alert' & Ha' & Hst & _).
    assert (Hfire : fire resolved t = resolved).
    { unfold fire. rewrite Ht.
      apply (escalate_alert_halted resolved alert_id alert' _ Ha').
      by rewrite Hst. }
    by rewrite Hfire.
Qed.

(** ** Escalation without a policy or without channels (C10) *)

(** C10: when no policy lists the severity of the alert, or when the
    policy found has no entry for the level in [notification_channels],
    [escalate_alert] returns the manager as it was: status and
    escalation level keep their values, no channel is called and no action
    runs. *)
Theorem escalate_alert_unconfigured_noop
  (mgr : AdvancedNotificationManager) (alert_id : string) (alert : Alert)
  (level : Z) :
  active_alerts mgr !! alert_id = Some alert ->
  (get_escalation_policy mgr (severity alert) = None
   \/ exists policy,
        get_escalation_policy mgr (severity alert) = Some policy
        /\ dict_get (policy_notification_channels policy) level = None) ->
  escalate_alert mgr alert_id level = mgr.
Proof.
  intros Ha Hcfg. unfold escalate_alert. rewrite Ha.
  destruct (halts_escalation (status alert)); [done|].
  destruct Hcfg as [-> | (policy & -> & ->)]; done.
Qed.

(** ** Acknowledge and resolve (C8) *)

(** C8: on an id that is not in the active-alert index, [acknowledge_alert]
    and [resolve_alert] return [False] and leave the manager as it was, the
    persistence log included.  On an id of the index they return [True];
    the stored alert gets the status acknowledged (resp. resolved), the
    actor and the time of the call; [resolve_alert] stores the notes, when
    they are given and not empty, under ["resolution_notes"] in the
    metadata; the alert is saved once, in its new state. *)
Theorem acknowledge_resolve_contract
  (mgr : AdvancedNotificationManager) (alert_id who : string)
  (notes : option string) (now : datetime) :
  (active_alerts mgr !! alert_id = None ->
   acknowledge_alert mgr alert_id who now = (false, mgr)
   /\ resolve_alert mgr alert_id who notes now = (false, mgr))
  /\ (forall alert, active_alerts mgr !! alert_id = Some alert ->
      (exists acked,
         let mgr' := snd (acknowledge_alert mgr alert_id who now) in
         fst (acknowledge_alert mgr alert_id who now) = true
         /\ active_alerts mgr' = <[alert_id := acked]> (active_alerts mgr)
         /\ status acked = ACKNOWLEDGED
         /\ acknowledged_by acked = Some who
         /\ acknowledged_at acked = Some now
         /\ metadata acked = metadata alert
         /\ db_log mgr' = db_log mgr ++ [SaveAlert acked])
      /\ (exists resolved,
            let mgr' := snd (resolve_alert mgr alert_id who notes now) in
            fst (resolve_alert mgr alert_id who notes now) = true
            /\ active_alerts mgr' = <[alert_id := resolved]> (active_alerts mgr)
            /\ status resolved = RESOLVED
            /\ resolved_by resolved = Some who
            /\ resolved_at resolved = Some now
            /\ (forall n, notes = Some n -> n <> "" ->
                metadata resolved = <["resolution_notes" := n]> (metadata alert))
            /\ (notes = None \/ notes = Some "" ->
                metadata resolved = metadata alert)
            /\ db_log mgr' = db_log mgr ++ [SaveAlert resolved])).
Proof.
  split.
  - intros Hnone. unfold acknowledge_alert, resolve_alert. by rewrite Hnone.
  - intros alert Ha. split.
    + unfold acknowledge_alert. rewrite Ha. eexists. simpl.
      repeat split; reflexivity.
    + unfold resolve_alert. rewrite Ha. eexists. simpl.
      repeat split; try reflexivity.
      * intros n -> Hn. simpl. by destruct (decide (n = "")).
      * by intros [-> | ->].
Qed.

(** ** Creation (C7) *)

(** C7: [create_alert] is total and returns the id it drew, whatever the
    suppression rules and the index hold (a rule whose check raises is
    passed over).  When the new alert is suppressed, the status of the
    object is set to suppressed and the manager is left as it was; when it
    is a duplicate, the manager is left as it was too: the alert is not
    added to the index, nothing is queued for notification, nothing is
    persisted. *)
Theorem create_alert_contract
  (mgr : AdvancedNotificationManager) (alert_id : string) (now : datetime)
  (args : create_args) :
  fst (create_alert mgr alert_id now args) = alert_id
  /\ (is_suppressed mgr (new_alert alert_id now args) = true ->
      status (fst (create_alert_local mgr alert_id now args)) = SUPPRESSED
      /\ snd (create_alert mgr alert_id now args) = mgr)
  /\ (is_duplicate mgr (new_alert alert_id now args) = true ->
      snd (create_alert mgr alert_id now args) = mgr
      /\ active_alerts (snd (create_alert mgr alert_id now args))
         = active_alerts mgr
      /\ alert_queue (snd (create_alert mgr alert_id now args))
         = alert_queue mgr).
Proof.
  unfold create_alert, create_alert_local. simpl. split; [done|]. split.
  - by intros ->.
  - intros ->. by destruct (is_suppressed mgr (new_alert alert_id now args)).
Qed.

(** ** Operations and the alerts they are addressed to *)

Lemma schedule_escalation_active_alerts mgr alert :
  active_alerts (schedule_escalation mgr alert) = active_alerts mgr.
Proof.
  unfold schedule_escalation.
  by destruct (get_escalation_policy mgr (severity alert)).
Qed.

Lemma process_alert_active_alerts mgr alert_id :
  active_alerts (process_alert mgr alert_id) = active_alerts mgr.
Proof.
  unfold process_alert.
  destruct (active_alerts mgr !! alert_id) as [alert|]; [|done].
  rewrite schedule_escalation_active_alerts.
  by destruct (send_initial_notifications_frame mgr alert)
    as (_ & _ & _ & -> & _).
Qed.

Lemma notification_worker_active_alerts mgr :
  active_alerts (notification_worker mgr) = active_alerts mgr.
Proof.
  unfold notification_worker. destruct (alert_queue mgr); [done|].
  by rewrite process_alert_active_alerts.
Qed.

(** A call leaves the alerts it is not addressed to as they are. *)
Lemma step_other_alert mgr op alert_id :
  op_alert op <> Some alert_id ->
  active_alerts (step mgr op) !! alert_id = active_alerts mgr !! alert_id.
Proof.
  intros Hop. destruct op as [i now args| |i who now|i who notes now|i level];
    simpl in *.
  - unfold create_alert_local.
    destruct (is_suppressed mgr _); [done|].
    destruct (is_duplicate mgr _); [done|]. simpl.
    apply lookup_insert_ne. congruence.
  - by rewrite notification_worker_active_alerts.
  - unfold acknowledge_alert. destruct (active_alerts mgr !! i); [|done].
    simpl. apply lookup_insert_ne. congruence.
  - unfold resolve_alert. destruct (active_alerts mgr !! i); [|done].
    simpl. apply lookup_insert_ne. congruence.
  - destruct (escalate_alert_cases mgr i level) as [->|(a & _ & _ & ->)];
      [done|].
    apply lookup_insert_ne. congruence.
Qed.

(** ** Alerts that are resolved or closed (C3) *)

(** C3, the claim as stated fails: [acknowledge_alert] on a resolved alert
    of the index returns [True] and moves its status back to
    acknowledged. *)
Lemma acknowledge_reopens_resolved :
  status <$> active_alerts resolved_mgr !! "a1" = Some RESOLVED
  /\ fst (acknowledge_alert resolved_mgr "a1" "alice" (timedelta_seconds 200))
     = true
  /\ status
       <$> active_alerts
             (snd (acknowledge_alert resolved_mgr "a1" "alice"
                     (timedelta_seconds 200)))
           !! "a1"
     = Some ACKNOWLEDGED.
Proof. by vm_compute. Qed.

(** C3, amended: for an alert of the index whose status is resolved or
    closed, [escalate_alert] changes nothing (status and escalation level
    stay), and no call addressed to another alert changes it.
    [acknowledge_alert] and [resolve_alert] addressed to it keep its
    escalation level and overwrite its status without looking at it:
    acknowledged, resp. resolved. *)
Theorem terminal_alert_frozen_for_escalation
  (mgr : AdvancedNotificationManager) (alert_id : string) (alert : Alert) :
  active_alerts mgr !! alert_id = Some alert ->
  status alert = RESOLVED \/ status alert = CLOSED ->
  (forall level, escalate_alert mgr alert_id level = mgr)
  /\ (forall op, op_alert op <> Some alert_id ->
        active_alerts (step mgr op) !! alert_id = Some alert)
  /\ (forall who now,
        exists alert',
          active_alerts (snd (acknowledge_alert mgr alert_id who now))
            !! alert_id = Some alert'
          /\ status alert' = ACKNOWLEDGED
          /\ escalation_level alert' = escalation_level alert)
  /\ (forall who notes now,
        exists alert',
          active_alerts (snd (resolve_alert mgr alert_id who notes now))
            !! alert_id = Some alert'
          /\ status alert' = RESOLVED
          /\ escalation_level alert' = escalation_level alert).
Proof.
  intros Ha Hst. split; [|split; [|split]].
  - intros level. apply (escalate_alert_halted mgr alert_id alert level Ha).
    by destruct Hst as [-> | ->].
  - intros op Hop. by rewrite step_other_alert.
  - intros who now. unfold acknowledge_alert. rewrite Ha. simpl.
    eexists. split; [apply lookup_insert_eq|]. by split.
  - intros who notes now.
    apply (resolve_alert_stored mgr alert_id who notes now alert Ha).
Qed.

(** ** The escalation level along a run (C4) *)

(** C4, the claim as stated fails: the alert is created and processed, the
    timer of level 2 fires, then the timer of level 1: the escalation
    level goes from 2 down to 1. *)
Lemma escalation_level_decreases :
  escalation_levels "a1" two_level_mgr
    [OpCreate "a1" 0 high_args; OpWorker;
     OpEscalate "a1" 2; OpEscalate "a1" 1]
  = [0; 0; 2; 1]
  /\ ~ Sorted Z.le
       (escalation_levels "a1" two_level_mgr
          [OpCreate "a1" 0 high_args; OpWorker;
           OpEscalate "a1" 2; OpEscalate "a1" 1]).
Proof.
  assert (Hlv : escalation_levels "a1" two_level_mgr
                  [OpCreate "a1" 0 high_args; OpWorker;
                   OpEscalate "a1" 2; OpEscalate "a1" 1]
                = [0; 0; 2; 1]) by (by vm_compute).
  split; [done|]. rewrite Hlv. intros Hs.
  apply Sorted_inv in Hs as [Hs _]. apply Sorted_inv in Hs as [Hs _].
  apply Sorted_inv in Hs as [_ Hhd]. apply HdRel_inv in Hhd. lia.
Qed.

Lemma run_trace_head mgr ops :
  exists tl, run_trace mgr ops = mgr :: tl.
Proof. destruct ops; simpl; eauto. Qed.

(** One call either keeps the escalation level of a stored alert, or it is
    the callback of one of its timers and sets the level of the timer. *)
Lemma step_escalation_level mgr op alert_id alert :
  active_alerts mgr !! alert_id = Some alert ->
  id_not_drawn alert_id op ->
  exists alert',
    active_alerts (step mgr op) !! alert_id = Some alert'
    /\ (escalation_level alert' = escalation_level alert
        \/ exists level, op = OpEscalate alert_id level
                         /\ escalation_level alert' = level).
Proof.
  intros Ha Hfresh.
  destruct (decide (op_alert op = Some alert_id)) as [Hop|Hop].
  - destruct op as [i now args| |i who now|i who notes now|i level];
      simpl in *; try discriminate; injection Hop as ->.
    + done.
    + unfold acknowledge_alert. rewrite Ha. simpl.
      eexists. split; [apply lookup_insert_eq|]. by left.
    + destruct (resolve_alert_stored mgr alert_id who notes now alert Ha)
        as (a' & Ha' & _ & Hl).
      exists a'. split; [done|]. by left.
    + destruct (escalate_alert_cases mgr alert_id level)
        as [->|(a & Ha2 & _ & ->)].
      * exists alert. split; [done|]. by left.
      * eexists. split; [apply lookup_insert_eq|]. right. by exists level.
  - exists alert. split; [by rewrite step_other_alert|]. by left.
Qed.

Lemma escalation_levels_sorted_strong alert_id ops : forall mgr alert,
  active_alerts mgr !! alert_id = Some alert ->
  Forall (id_not_drawn alert_id) ops ->
  StronglySorted Z.le (escalation_level alert :: fired_levels alert_id ops) ->
  Sorted Z.le (escalation_levels alert_id mgr ops).
Proof.
  induction ops as [|op rest IH]; intros mgr alert Ha Hfresh Hsorted.
  - unfold escalation_levels, level_of. simpl. rewrite Ha. simpl.
    repeat constructor.
  - apply Forall_cons_1 in Hfresh as [Hop Hrest].
    destruct (step_escalation_level mgr op alert_id alert Ha Hop)
      as (alert' & Ha' & Hlevel).
    assert (Hnext : StronglySorted Z.le
                      (escalation_level alert' :: fired_levels alert_id rest)
                    /\ escalation_level alert <= escalation_level alert').
    { apply StronglySorted_inv in Hsorted as [Htl Hall].
      destruct Hlevel as [Heq | (level & -> & Hl)].
      - rewrite Heq. split; [|lia].
        destruct op as [| | | |i level]; simpl in *;
          try (by constructor).
        destruct (decide (i = alert_id)); [|by constructor].
        apply StronglySorted_inv in Htl as [Htl' _].
        apply Forall_cons_1 in Hall as [_ Hall']. by constructor.
      - simpl in *. destruct (decide (alert_id = alert_id)); [|done].
        rewrite Hl. split; [done|].
        apply Forall_cons_1 in Hall as [Hle _]. lia. }
    destruct Hnext as [Hnext Hle].
    specialize (IH (step mgr op) alert' Ha' Hrest Hnext).
    unfold escalation_levels in *. simpl.
    unfold level_of at 1. rewrite Ha. simpl.
    constructor; [done|].
    destruct (run_trace_head (step mgr op) rest) as (tl & ->). simpl.
    unfold level_of at 1. rewrite Ha'. simpl. by constructor.
Qed.

(** C4, amended: [escalate_alert] sets the escalation level to the level
    of the timer that fires, whatever the level was; the other calls keep
    it.  So the values of the escalation level of an alert along a run are
    non-decreasing when the callbacks addressed to the alert fire in
    non-decreasing order of level, starting at or above its current level
    (and the ids drawn by later creations are new); nothing orders them
    otherwise. *)
Theorem escalation_levels_sorted
  (mgr : AdvancedNotificationManager) (alert_id : string) (alert : Alert)
  (ops : list Op) :
  active_alerts mgr !! alert_id = Some alert ->
  Forall (id_not_drawn alert_id) ops ->
  Sorted Z.le (escalation_level alert :: fired_levels alert_id ops) ->
  Sorted Z.le (escalation_levels alert_id mgr ops).
Proof.
  intros Ha Hfresh Hsorted.
  apply (escalation_levels_sorted_strong alert_id ops mgr alert Ha Hfresh).
  apply Sorted_StronglySorted; [|done]. intros x y z. lia.
Qed.

(** ** Channel failures during a fan-out (C9) *)

Lemma delivered_same_channels m m' alert is_escalation channels :
  notification_channels m' = notification_channels m ->
  delivered m' alert is_escalation channels
  = delivered m alert is_escalation channels.
Proof. intros H. unfold delivered. by rewrite H. Qed.

Lemma escalation_fan_out_db_log channels : forall mgr alert,
  db_log (escalation_fan_out mgr alert channels)
  = db_log mgr
    ++ map (fun c => SaveNotification (id alert) c "escalated" None)
         (delivered mgr alert true channels).
Proof.
  induction channels as [|c rest IH]; intros mgr alert; simpl.
  - by rewrite app_nil_r.
  - destruct (dict_get (notification_channels mgr) c) as [impl|]; [|apply IH].
    rewrite IH.
    destruct (impl alert true);
      rewrite (delivered_same_channels mgr) by reflexivity; simpl;
      [by rewrite <- app_assoc | done].
Qed.

(** The fan-out of level 0 persists one record for every registered
    channel, whether its [send] returns or raises, and goes on to the next
    channel. *)
Lemma initial_fan_out_db_log channels : forall mgr alert,
  db_log (initial_fan_out mgr alert channels)
  = db_log mgr ++ map (initial_record mgr alert) (registered mgr channels).
Proof.
  induction channels as [|c rest IH]; intros mgr alert; simpl.
  - by rewrite app_nil_r.
  - destruct (dict_get (notification_channels mgr) c) as [impl|] eqn:Hc.
    + rewrite bool_decide_eq_true_2 by eauto. rewrite IH. simpl.
      unfold initial_record at 2. rewrite Hc.
      destruct (impl alert false); simpl; rewrite <- app_assoc; simpl;
        rewrite (registered_same mgr) by reflexivity;
        do 2 f_equal; apply map_ext; intros c'; reflexivity.
    + rewrite bool_decide_eq_false_2 by (intros [? ?]; congruence).
      apply IH.
Qed.

(** C9, the defect: in the fan-out of [escalate_alert] a channel that
    raises is caught and the next channels are tried, but nothing is
    persisted for it; every record that the escalation writes has the
    status ["escalated"].  In the run below Slack raises twice: at level 0
    [send_initial_notifications] persists a ["failed"] record with the
    error, at level 1 [escalate_alert] persists nothing for Slack. *)
Theorem escalation_failure_not_recorded :
  (forall mgr alert channels,
     db_log (escalation_fan_out mgr alert channels)
     = db_log mgr
       ++ map (fun c => SaveNotification (id alert) c "escalated" None)
            (delivered mgr alert true channels))
  /\ (let mgr' :=
        run flaky_mgr
          [OpCreate "a1" 0 high_args; OpWorker; OpEscalate "a1" 1] in
      send_log mgr'
      = [mk_SendCall SLACK "a1" false; mk_SendCall EMAIL "a1" false;
         mk_SendCall SLACK "a1" true; mk_SendCall EMAIL "a1" true]
      /\ db_log mgr'
         = [SaveAlert (new_alert "a1" 0 high_args);
            SaveNotification "a1" SLACK "failed" (Some "HTTP 503");
            SaveNotification "a1" EMAIL "sent" None;
            SaveNotification "a1" EMAIL "escalated" None]).
Proof.
  split.
  - intros mgr alert channels. apply escalation_fan_out_db_log.
  - by vm_compute.
Qed.

(** ** Arming the escalation timers (C2) *)

Lemma schedule_escalation_frame mgr alert :
  escalation_policies (schedule_escalation mgr alert) = escalation_policies mgr
  /\ notification_channels (schedule_escalation mgr alert)
     = notification_channels mgr
  /\ alert_queue (schedule_escalation mgr alert) = alert_queue mgr
  /\ send_log (schedule_escalation mgr alert) = send_log mgr.
Proof.
  unfold schedule_escalation.
  by destruct (get_escalation_policy mgr (severity alert)).
Qed.

Lemma process_alert_frame mgr alert_id :
  escalation_policies (process_alert mgr alert_id) = escalation_policies mgr
  /\ notification_channels (process_alert mgr alert_id)
     = notification_channels mgr
  /\ alert_queue (process_alert mgr alert_id) = alert_queue mgr.
Proof.
  unfold process_alert.
  destruct (active_alerts mgr !! alert_id) as [alert|]; [|done].
  destruct (schedule_escalation_frame
              (send_initial_notifications mgr alert) alert)
    as (-> & -> & -> & _).
  by destruct (send_initial_notifications_frame mgr alert)
    as (-> & -> & _ & _ & -> & _).
Qed.

Lemma notification_worker_frame mgr :
  escalation_policies (notification_worker mgr) = escalation_policies mgr
  /\ notification_channels (notification_worker mgr)
     = notification_channels mgr
  /\ active_alerts (notification_worker mgr) = active_alerts mgr
  /\ alert_queue (notification_worker mgr) = tail (alert_queue mgr).
Proof.
  pose proof (notification_worker_active_alerts mgr) as Hact.
  unfold notification_worker in *.
  destruct (alert_queue mgr) as [|i q] eqn:Hqueue; [by rewrite Hqueue|].
  destruct (process_alert_frame (with_alert_queue q mgr) i)
    as (Hp & Hc & Hq).
  rewrite Hp, Hc, Hq, Hact. repeat split.
Qed.



(** What an escalation that passes its guards does to the alert and to the
    channels. *)
Lemma escalate_alert_effect mgr alert_id alert level policy channels :
  active_alerts mgr !! alert_id = Some alert ->
  halts_escalation (status alert) = false ->
  get_escalation_policy mgr (severity alert) = Some policy ->
  dict_get (policy_notification_channels policy) level = Some channels ->
  active_alerts (escalate_alert mgr alert_id level) !! alert_id
  = Some (set_status ESCALATED (set_escalation_level level alert))
  /\ send_log (escalate_alert mgr alert_id level)
     = send_log mgr
       ++ map (fun c => mk_SendCall c (id alert) true)
            (registered mgr channels).
Proof.
  intros Ha Hh Hp Hc. unfold escalate_alert. rewrite Ha, Hh, Hp, Hc.
  set (alert' := set_status ESCALATED (set_escalation_level level alert)).
  set (mgr1 := with_active_alerts _ mgr).
  destruct (escalation_fan_out_frame channels mgr1 alert')
    as (_ & _ & _ & Hact & _).
  assert (Hlook : active_alerts mgr1 !! alert_id = Some alert')
    by apply lookup_insert_eq.
  assert (Hlog : send_log (escalation_fan_out mgr1 alert' channels)
                 = send_log mgr
                   ++ map (fun c => mk_SendCall c (id alert) true)
                        (registered mgr channels))
    by (rewrite escalation_fan_out_send_log; reflexivity).
  destruct (dict_get (escalation_rules policy) level) as [action|].
  - destruct (execute_escalation_action_frame
                (escalation_fan_out mgr1 alert' channels) alert' action)
      as (_ & _ & _ & -> & _ & _ & -> & _).
    by rewrite Hact.
  - by rewrite Hact.
Qed.

Lemma get_escalation_policy_same m m' sev :
  escalation_policies m' = escalation_policies m ->
  get_escalation_policy m' sev = get_escalation_policy m sev.
Proof. intros H. unfold get_escalation_policy. by rewrite H. Qed.



(** ** The scenarios of the specification, run on the model *)

Example scenario_2 :
  send_log scenario_processed = [mk_SendCall EMAIL "a1" false]
  /\ advance_clock scenario_processed (timedelta_seconds 299)
     = scenario_processed
  /\ (let escalated := advance_clock scenario_processed (timedelta_seconds 300) in
      send_log escalated
      = [mk_SendCall EMAIL "a1" false;
         mk_SendCall SLACK "a1" true; mk_SendCall EMAIL "a1" true]
      /\ status <$> active_alerts escalated !! "a1" = Some ESCALATED
      /\ level_of "a1" escalated = Some 1
      /\ timers escalated = []).
Proof. by vm_compute. Qed.

Example scenario_3 :
  let resolved :=
    snd (resolve_alert scenario_processed "a1" "ops" None
           (timedelta_seconds 100)) in
  let later := advance_clock resolved (timedelta_seconds 300) in
  timers resolved = [mk_Timer (timedelta_seconds 300) "a1" 1]
  /\ timers later = []
  /\ send_log later = send_log resolved
  /\ db_log later = db_log resolved
  /\ status <$> active_alerts later !! "a1" = Some RESOLVED.
Proof. by vm_compute. Qed.

Example scenario_5 :
  acknowledge_alert scenario_processed "unknown" "alice" 0
  = (false, scenario_processed)
  /\ resolve_alert scenario_processed "unknown" "alice" None 0
     = (false, scenario_processed).
Proof. by vm_compute. Qed.

(** ** The theorems at concrete inputs *)


Lemma terminal_alert_frozen_for_escalation_witness :
  active_alerts resolved_mgr !! "a1" = Some a1_resolved
  /\ status a1_resolved = RESOLVED
  /\ escalate_alert resolved_mgr "a1" 1 = resolved_mgr
  /\ active_alerts (step resolved_mgr (OpCreate "a2" 0 high_args)) !! "a1"
     = Some a1_resolved
  /\ (exists alert',
        active_alerts
          (snd (acknowledge_alert resolved_mgr "a1" "alice"
                  (timedelta_seconds 200))) !! "a1" = Some alert'
        /\ status alert' = ACKNOWLEDGED
        /\ escalation_level alert' = escalation_level a1_resolved).
Proof.
  assert (Hlook : active_alerts resolved_mgr !! "a1" = Some a1_resolved)
    by (vm_compute; reflexivity).
  destruct (terminal_alert_frozen_for_escalation resolved_mgr "a1"
              a1_resolved Hlook (or_introl eq_refl))
    as (Hesc & Hother & Hack & _).
  split; [exact Hlook|]. split; [reflexivity|].
  split; [exact (Hesc 1)|].
  split; [apply Hother; simpl; discriminate|].
  exact (Hack "alice" (timedelta_seconds 200)).
Defined.

Lemma escalation_levels_sorted_witness :
  let mgr := run two_level_mgr [OpCreate "a1" 0 high_args; OpWorker] in
  let ops :=
    [OpAcknowledge "a1" "alice" (timedelta_seconds 100);
     OpEscalate "a1" 1;
     OpCreate "a2" (timedelta_seconds 400) high_args;
     OpWorker;
     OpEscalate "a1" 2;
     OpEscalate "a2" 1] in
  active_alerts mgr !! "a1" = Some a1_new
  /\ fired_levels "a1" ops = [1; 2]
  /\ Sorted Z.le (escalation_levels "a1" mgr ops).
Proof.
  intros mgr ops.
  assert (Hlook : active_alerts mgr !! "a1" = Some a1_new)
    by (vm_compute; reflexivity).
  split; [exact Hlook|]. split; [reflexivity|].
  apply (escalation_levels_sorted mgr "a1" a1_new ops Hlook).
  - repeat constructor; simpl; discriminate.
  - simpl. repeat constructor; lia.
Defined.

Lemma escalate_alert_terminal_noop_witness :
  (active_alerts resolved_mgr !! "a1" = Some a1_resolved
   /\ status a1_resolved = RESOLVED
   /\ escalate_alert resolved_mgr "a1" 1 = resolved_mgr)
  /\ (active_alerts scenario_processed !! "a1" = Some a1_new
      /\ let resolved :=
           snd (resolve_alert scenario_processed "a1" "ops" None
                  (timedelta_seconds 100)) in
         let t := mk_Timer (timedelta_seconds 300) "a1" 1 in
         fire resolved t = resolved
         /\ send_log (fire resolved t) = send_log resolved
         /\ db_log (fire resolved t) = db_log resolved).
Proof.
  assert (Hres : active_alerts resolved_mgr !! "a1" = Some a1_resolved)
    by (vm_compute; reflexivity).
  assert (Hnew : active_alerts scenario_processed !! "a1" = Some a1_new)
    by (vm_compute; reflexivity).
  split.
  - split; [exact Hres|]. split; [reflexivity|].
    exact (proj1 (escalate_alert_terminal_noop resolved_mgr "a1" a1_resolved 1
                    Hres) (or_introl eq_refl)).
  - split; [exact Hnew|].
    exact (proj2 (escalate_alert_terminal_noop scenario_processed "a1" a1_new 1
                    Hnew) "ops" None (timedelta_seconds 100)
             (mk_Timer (timedelta_seconds 300) "a1" 1) eq_refl).
Defined.

Lemma create_alert_contract_witness :
  (is_suppressed night_mgr
     (new_alert "a1" (timedelta_seconds (3 * 3600)) low_args) = true
   /\ fst (create_alert night_mgr "a1" (timedelta_seconds (3 * 3600)) low_args)
      = "a1"
   /\ status
        (fst (create_alert_local night_mgr "a1"
                (timedelta_seconds (3 * 3600)) low_args)) = SUPPRESSED
   /\ snd (create_alert night_mgr "a1" (timedelta_seconds (3 * 3600)) low_args)
      = night_mgr)
  /\ (is_duplicate keyed_mgr
        (new_alert "a2" (timedelta_seconds 60) keyed_args) = true
      /\ fst (create_alert keyed_mgr "a2" (timedelta_seconds 60) keyed_args)
         = "a2"
      /\ snd (create_alert keyed_mgr "a2" (timedelta_seconds 60) keyed_args)
         = keyed_mgr).
Proof.
  assert (Hsup : is_suppressed night_mgr
                   (new_alert "a1" (timedelta_seconds (3 * 3600)) low_args)
                 = true) by (vm_compute; reflexivity).
  assert (Hdup : is_duplicate keyed_mgr
                   (new_alert "a2" (timedelta_seconds 60) keyed_args)
                 = true) by (vm_compute; reflexivity).
  destruct (create_alert_contract night_mgr "a1"
              (timedelta_seconds (3 * 3600)) low_args) as (Hid1 & Hs & _).
  destruct (create_alert_contract keyed_mgr "a2" (timedelta_seconds 60)
              keyed_args) as (Hid2 & _ & Hd).
  split.
  - split; [exact Hsup|]. split; [exact Hid1|]. exact (Hs Hsup).
  - split; [exact Hdup|]. split; [exact Hid2|]. exact (proj1 (Hd Hdup)).
Defined.

Lemma acknowledge_resolve_contract_witness :
  (active_alerts scenario_processed !! "unknown" = None
   /\ acknowledge_alert scenario_processed "unknown" "alice" 0
      = (false, scenario_processed)
   /\ resolve_alert scenario_processed "unknown" "alice" (Some "fixed") 0
      = (false, scenario_processed))
  /\ (active_alerts scenario_processed !! "a1" = Some a1_new
      /\ exists resolved,
           let mgr' :=
             snd (resolve_alert scenario_processed "a1" "alice"
                    (Some "fixed") (timedelta_seconds 100)) in
           fst (resolve_alert scenario_processed "a1" "alice"
                  (Some "fixed") (timedelta_seconds 100)) = true
           /\ active_alerts mgr' !! "a1" = Some resolved
           /\ status resolved = RESOLVED
           /\ resolved_by resolved = Some "alice"
           /\ resolved_at resolved = Some (timedelta_seconds 100)
           /\ metadata resolved !! "resolution_notes" = Some "fixed"
           /\ db_log mgr' = db_log scenario_processed ++ [SaveAlert resolved]).
Proof.
  assert (Hnone : active_alerts scenario_processed !! "unknown" = None)
    by (vm_compute; reflexivity).
  assert (Hnew : active_alerts scenario_processed !! "a1" = Some a1_new)
    by (vm_compute; reflexivity).
  split.
  - split; [exact Hnone|].
    exact (proj1 (acknowledge_resolve_contract scenario_processed "unknown"
                    "alice" (Some "fixed") 0) Hnone).
  - split; [exact Hnew|].
    destruct (proj2 (acknowledge_resolve_contract scenario_processed "a1"
                       "alice" (Some "fixed") (timedelta_seconds 100))
                a1_new Hnew)
      as (_ & resolved & Htrue & Hact & Hst & Hby & Hat & Hnotes & _ & Hdb).
    exists resolved. cbv zeta.
    split; [exact Htrue|].
    split; [rewrite Hact; apply lookup_insert_eq|].
    split; [exact Hst|]. split; [exact Hby|]. split; [exact Hat|].
    split; [|exact Hdb].
    rewrite (Hnotes "fixed" eq_refl ltac:(discriminate)).
    apply lookup_insert_eq.
Defined.

Lemma escalate_alert_unconfigured_noop_witness :
  (let mgr := run empty_mgr [OpCreate "a1" 0 high_args] in
   active_alerts mgr !! "a1" = Some a1_new
   /\ get_escalation_policy mgr HIGH = None
   /\ escalate_alert mgr "a1" 1 = mgr)
  /\ (active_alerts scenario_processed !! "a1" = Some a1_new
      /\ get_escalation_policy scenario_processed HIGH = Some high_policy
      /\ dict_get (policy_notification_channels high_policy) 2 = None
      /\ escalate_alert scenario_processed "a1" 2 = scenario_processed).
Proof.
  assert (Hbare : active_alerts (run empty_mgr [OpCreate "a1" 0 high_args])
                    !! "a1" = Some a1_new) by (vm_compute; reflexivity).
  assert (Hnew : active_alerts scenario_processed !! "a1" = Some a1_new)
    by (vm_compute; reflexivity).
  split.
  - cbv zeta. split; [exact Hbare|]. split; [reflexivity|].
    exact (escalate_alert_unconfigured_noop
             (run empty_mgr [OpCreate "a1" 0 high_args]) "a1" a1_new 1
             Hbare (or_introl eq_refl)).
  - split; [exact Hnew|]. split; [reflexivity|]. split; [reflexivity|].
    exact (escalate_alert_unconfigured_noop scenario_processed "a1" a1_new 2
             Hnew
             (or_intror (ex_intro _ high_policy (conj eq_refl eq_refl)))).
Defined.

(** * Further properties of the manager *)

(** ** Policy lookup *)

Lemma first_policy_spec policies sev :
  match first_policy policies sev with
  | Some policy =>
      exists pre policy_name post,
        policies = pre ++ (policy_name, policy) :: post
        /\ In sev (severity_levels policy)
        /\ Forall (fun np => ~ In sev (severity_levels (snd np))) pre
  | None => Forall (fun np => ~ In sev (severity_levels (snd np))) policies
  end.
Proof.
  induction policies as [|[n p] rest IH]; simpl; [constructor|].
  destruct (bool_decide (sev ∈ severity_levels p)) eqn:Hsev.
  - apply bool_decide_eq_true, list_elem_of_In in Hsev.
    exists [], n, rest. repeat split; [done|constructor].
  - apply bool_decide_eq_false in Hsev.
    assert (Hnot : ~ In sev (severity_levels p))
      by (intros H; apply Hsev; by apply list_elem_of_In).
    destruct (first_policy rest sev) as [policy|].
    + destruct IH as (pre & n' & post & -> & Hin & Hpre).
      exists ((n, p) :: pre), n', post. repeat split; [done|].
      by constructor.
    + by constructor.
Qed.

(** X1: [get_escalation_policy] returns the first policy, in the order in
    which the policies were registered, whose [severity_levels] contains the
    severity; it returns [None] exactly when no policy lists the
    severity. *)
Theorem get_escalation_policy_first_match
  (mgr : AdvancedNotificationManager) (sev : AlertSeverity) :
  match get_escalation_policy mgr sev with
  | Some policy =>
      exists pre policy_name post,
        escalation_policies mgr = pre ++ (policy_name, policy) :: post
        /\ In sev (severity_levels policy)
        /\ Forall (fun np => ~ In sev (severity_levels (snd np))) pre
  | None =>
      Forall (fun np => ~ In sev (severity_levels (snd np)))
        (escalation_policies mgr)
  end.
Proof. apply first_policy_spec. Qed.

(** ** The timers that [schedule_escalation] arms *)

Lemma arm_timers_levels_sorted policy alert levels :
  StronglySorted Z.lt levels ->
  StronglySorted Z.lt (map timer_level (arm_timers policy alert levels)).
Proof.
  induction levels as [|l rest IH]; [constructor|].
  intros Hs. apply StronglySorted_inv in Hs as [Hrest Hall].
  rewrite arm_timers_cons.
  destruct (dict_get (time_thresholds policy) (KLevel l)); [|by apply IH].
  destruct (escalation_due alert z); [|constructor].
  simpl. constructor; [by apply IH|].
  apply List.Forall_forall. intros x Hx. apply in_map_iff in Hx as (t & <- & Ht).
  apply arm_timers_In_iff in Ht
    as (pre & level & post & th & due & -> & _ & _ & -> & _). simpl.
  rewrite List.Forall_forall in Hall. apply Hall.
  apply in_or_app. right. by left.
Qed.

(** X2: when a policy is found, [schedule_escalation] changes nothing but
    the set of timers.  It adds exactly one timer, due at the timestamp of
    the alert plus the threshold, for every level between 1 and
    [max_escalation_level] that is a key of [time_thresholds] and such that
    the due time of that level and of every lower level with a threshold
    can be computed; the timers are added in increasing order of level.
    A level above [max_escalation_level] gets no timer even when it has a
    threshold, and neither does a level at or above the first one whose
    due time overflows. *)
Theorem schedule_escalation_exact
  (mgr : AdvancedNotificationManager) (alert : Alert)
  (policy : EscalationPolicy) :
  get_escalation_policy mgr (severity alert) = Some policy ->
  exists armed,
    schedule_escalation mgr alert = with_timers (timers mgr ++ armed) mgr
    /\ (forall t,
          In t armed <->
          exists level threshold,
            1 <= level <= max_escalation_level policy
            /\ dict_get (time_thresholds policy) (KLevel level) = Some threshold
            /\ (forall l th,
                  1 <= l <= level ->
                  dict_get (time_thresholds policy) (KLevel l) = Some th ->
                  is_Some (escalation_due alert th))
            /\ t = mk_Timer (timestamp alert + timedelta_seconds threshold)
                     (id alert) level)
    /\ StronglySorted Z.lt (map timer_level armed).
Proof.
  intros Hp. unfold schedule_escalation. rewrite Hp.
  eexists. split; [reflexivity|]. split.
  - intros t. rewrite arm_timers_range. split.
    + intros (level & th & Hl & Hth & Hbelow & ->).
      exists level, th. split; [lia|]. by split.
    + intros (level & th & Hl & Hth & Hbelow & ->).
      exists level, th. split; [lia|]. by split.
  - apply arm_timers_levels_sorted, py_range_sorted.
Qed.

Lemma dict_get_severity_keyed (d : list (ThresholdKey * Z)) (level : Z) :
  Forall (fun kv => exists s, fst kv = KSeverity s) d ->
  dict_get d (KLevel level) = None.
Proof.
  induction d as [|[k v] rest IH]; simpl; [done|].
  intros Hall. apply Forall_cons_1 in Hall as [(s & Hs) Hrest].
  simpl in Hs. subst k. destruct (decide (KSeverity s = KLevel level));
    [discriminate|by apply IH].
Qed.

Lemma arm_timers_severity_keyed policy alert levels :
  Forall (fun kv => exists s, fst kv = KSeverity s) (time_thresholds policy) ->
  arm_timers policy alert levels = [].
Proof.
  intros Hall. induction levels as [|l rest IH]; [done|].
  rewrite arm_timers_cons. by rewrite dict_get_severity_keyed.
Qed.

(** X3: a policy whose [time_thresholds] is keyed by severities, as the
    annotation [Dict[AlertSeverity, int]] says, arms no timer at all:
    [schedule_escalation] looks integer levels up in it and finds none, so
    the manager is left as it was. *)
Theorem severity_keyed_thresholds_arm_nothing
  (mgr : AdvancedNotificationManager) (alert : Alert)
  (policy : EscalationPolicy) :
  get_escalation_policy mgr (severity alert) = Some policy ->
  Forall (fun kv => exists s, fst kv = KSeverity s) (time_thresholds policy) ->
  schedule_escalation mgr alert = mgr.
Proof.
  intros Hp Hall. unfold schedule_escalation. rewrite Hp.
  rewrite arm_timers_severity_keyed by done. rewrite app_nil_r.
  by destruct mgr.
Qed.

(** ** Composition of suppression rules *)

Lemma is_suppressed_loop_app rules1 rules2 alert :
  is_suppressed_loop (rules1 ++ rules2) alert
  = is_suppressed_loop rules1 alert || is_suppressed_loop rules2 alert.
Proof.
  induction rules1 as [|[n rc] rest IH]; simpl; [done|].
  by destruct (check_rule rc alert).
Qed.

(** X4: the rules are joined by "or": the answer of [is_suppressed] on a
    list of rules put together from two lists is the disjunction of the
    answers on each, so the order of the rules does not matter. *)
Theorem is_suppressed_rules_disjunction
  (rules1 rules2 : list (string * SuppressionRule)) (alert : Alert) :
  is_suppressed_loop (rules1 ++ rules2) alert
  = is_suppressed_loop rules1 alert || is_suppressed_loop rules2 alert
  /\ is_suppressed_loop (rules1 ++ rules2) alert
     = is_suppressed_loop (rules2 ++ rules1) alert.
Proof.
  rewrite !is_suppressed_loop_app. split; [done|apply orb_comm].
Qed.

(** X5: a rule whose [start_time] or [end_time] does not parse is passed
    over, whatever its other keys, even when it sets [time_based] to
    false: the bounds are parsed before the flag is read, the error is
    caught, and the loop goes on to the next rule. *)
Theorem malformed_rule_is_ignored
  (pre post : list (string * SuppressionRule)) (rule_name : string)
  (rule : SuppressionRule) (alert : Alert) :
  strptime_HM (default "00:00" (start_time rule)) = None
  \/ strptime_HM (default "23:59" (end_time rule)) = None ->
  is_suppressed_loop (pre ++ (rule_name, rule) :: post) alert
  = is_suppressed_loop (pre ++ post) alert.
Proof.
  intros Hbad. rewrite !is_suppressed_loop_app. f_equal. simpl.
  unfold check_rule.
  destruct Hbad as [-> | Hend]; [done|].
  destruct (strptime_HM (default "00:00" (start_time rule))); [|done].
  by rewrite Hend.
Qed.

(** ** The default window of a rule *)

(** The fields of [dt.time()] are the digits of the time of day. *)
Lemma datetime_time_fields (dt : datetime) :
  let us := dt mod microseconds_per_day in
  let t := datetime_time dt in
  0 <= hour t <= 23 /\ 0 <= minute t <= 59 /\ 0 <= second t <= 59
  /\ 0 <= microsecond t <= 999999
  /\ us = hour t * 3600000000 + minute t * 60000000 + second t * 1000000
          + microsecond t.
Proof.
  unfold datetime_time, microseconds_per_day. cbn [hour minute second microsecond].
  change (86400 * 1000000) with 86400000000.
  set (us := dt mod 86400000000).
  assert (Hus : 0 <= us < 86400000000) by (apply Z.mod_pos_bound; lia).
  cbv zeta. clearbody us. Z.to_euclidean_division_equations. lia.
Qed.

Lemma time_le_midnight (dt : datetime) :
  time_le (mk_time 0 0 0 0) (datetime_time dt) = true.
Proof.
  destruct (datetime_time_fields dt) as (Hh & Hm & Hs & Hu & _).
  cbv zeta in *. unfold time_le. cbn [hour minute second microsecond].
  repeat (match goal with
          | |- context [?a <? ?b] => destruct (Z.ltb_spec a b)
          end; try reflexivity; try lia);
    try (apply Z.leb_le; lia).
Qed.

Lemma time_le_last_minute (dt : datetime) :
  time_le (datetime_time dt) (mk_time 23 59 0 0) = true
  <-> dt mod microseconds_per_day <= 86340000000.
Proof.
  destruct (datetime_time_fields dt) as (Hh & Hm & Hs & Hu & Hus).
  cbv zeta in *. rewrite Hus. unfold time_le.
  cbn [hour minute second microsecond].
  generalize dependent (hour (datetime_time dt)).
  generalize dependent (minute (datetime_time dt)).
  generalize dependent (second (datetime_time dt)).
  generalize dependent (microsecond (datetime_time dt)).
  intros u Hu s Hs m Hm h Hh _.
  repeat (match goal with
          | |- context [?a <? ?b] => destruct (Z.ltb_spec a b)
          end);
    rewrite ?Z.leb_le; split; intros; try discriminate; try reflexivity;
    lia.
Qed.

(** X6: a rule without [start_time] and [end_time] that is time based (the
    default) has the window 00:00 to 23:59, both bounds at second zero: a
    rule with no other clause suppresses an alert exactly when the time of
    day of its timestamp is at most 23:59:00, so the alerts of the last
    minute of the day escape it. *)
Theorem default_window_misses_last_minute
  (rule : SuppressionRule) (alert : Alert) :
  start_time rule = None -> end_time rule = None ->
  time_based rule <> Some false ->
  categories rule = None -> sources rule = None -> severities rule = None ->
  check_rule rule alert = RuleReturnsTrue
  <-> timestamp alert mod microseconds_per_day <= 86340000000.
Proof.
  intros Hs He Htb Hc Hso Hse. unfold check_rule.
  rewrite Hs, He, Hc, Hso, Hse. simpl default.
  change (strptime_HM "00:00") with (Some (mk_time 0 0 0 0)).
  change (strptime_HM "23:59") with (Some (mk_time 23 59 0 0)).
  cbv beta iota zeta. rewrite time_le_midnight. rewrite <- time_le_last_minute.
  destruct (time_based rule) as [[|]|]; try congruence;
    destruct (time_le (datetime_time (timestamp alert)) (mk_time 23 59 0 0));
    simpl; split; congruence.
Qed.

(** ** The logs along a run *)

Lemma logs_extend_same m m' :
  send_log m' = send_log m -> db_log m' = db_log m ->
  action_log m' = action_log m -> logs_extend m m'.
Proof.
  intros Hs Hd Ha. split; [|split].
  - exists []. by rewrite app_nil_r.
  - exists []. rewrite app_nil_r. split; [done|]. split; constructor.
  - exists []. by rewrite app_nil_r.
Qed.

Lemma logs_extend_refl m : logs_extend m m.
Proof. by apply logs_extend_same. Qed.

Lemma logs_extend_trans m1 m2 m3 :
  logs_extend m1 m2 -> logs_extend m2 m3 -> logs_extend m1 m3.
Proof.
  intros ((s1 & Hs1) & (d1 & Hd1 & Ha1 & Hn1) & (a1 & Hc1))
         ((s2 & Hs2) & (d2 & Hd2 & Ha2 & Hn2) & (a2 & Hc2)).
  split; [|split].
  - exists (s1 ++ s2). by rewrite Hs2, Hs1, app_assoc.
  - exists (d1 ++ d2). rewrite Hd2, Hd1, app_assoc.
    split; [done|]. split; by apply Forall_app.
  - exists (a1 ++ a2). by rewrite Hc2, Hc1, app_assoc.
Qed.

Lemma logs_extend_db m m' call :
  send_log m' = send_log m -> db_log m' = db_log m ++ [call] ->
  action_log m' = action_log m ->
  alert_row_ok call -> notification_row_ok call -> logs_extend m m'.
Proof.
  intros Hs Hd Ha Hok1 Hok2. split; [|split].
  - exists []. by rewrite app_nil_r.
  - exists [call]. split; [done|]. split; by repeat constructor.
  - exists []. by rewrite app_nil_r.
Qed.

Lemma initial_fan_out_logs channels : forall mgr alert,
  logs_extend mgr (initial_fan_out mgr alert channels).
Proof.
  induction channels as [|c rest IH]; intros mgr alert; simpl.
  - apply logs_extend_refl.
  - destruct (dict_get (notification_channels mgr) c) as [impl|]; [|apply IH].
    eapply logs_extend_trans; [|apply IH].
    eapply (logs_extend_trans _ (record_send mgr c alert false)).
    + split; [by eexists|]. split.
      * exists []. rewrite app_nil_r. split; [done|]. split; constructor.
      * exists []. by rewrite app_nil_r.
    + destruct (impl alert false);
        eapply logs_extend_db; try reflexivity; simpl; eauto.
Qed.

Lemma escalation_fan_out_logs channels : forall mgr alert,
  logs_extend mgr (escalation_fan_out mgr alert channels).
Proof.
  induction channels as [|c rest IH]; intros mgr alert; simpl.
  - apply logs_extend_refl.
  - destruct (dict_get (notification_channels mgr) c) as [impl|]; [|apply IH].
    eapply logs_extend_trans; [|apply IH].
    eapply (logs_extend_trans _ (record_send mgr c alert true)).
    + split; [by eexists|]. split.
      * exists []. rewrite app_nil_r. split; [done|]. split; constructor.
      * exists []. by rewrite app_nil_r.
    + destruct (impl alert true).
      * eapply logs_extend_db; try reflexivity; simpl; eauto.
      * apply logs_extend_refl.
Qed.

Lemma execute_escalation_action_logs mgr alert action :
  logs_extend mgr (execute_escalation_action mgr alert action).
Proof.
  destruct action; simpl; try apply logs_extend_refl;
    (split; [exists []; by rewrite app_nil_r|]; split;
     [ exists []; rewrite app_nil_r; split; [done|]; split; constructor
     | by eexists ]).
Qed.

Lemma schedule_escalation_logs mgr alert :
  logs_extend mgr (schedule_escalation mgr alert).
Proof.
  unfold schedule_escalation.
  destruct (get_escalation_policy mgr (severity alert));
    [by apply logs_extend_same | apply logs_extend_refl].
Qed.

Lemma process_alert_logs mgr alert_id :
  logs_extend mgr (process_alert mgr alert_id).
Proof.
  unfold process_alert.
  destruct (active_alerts mgr !! alert_id) as [alert|];
    [|apply logs_extend_refl].
  eapply logs_extend_trans; [|apply schedule_escalation_logs].
  unfold send_initial_notifications.
  destruct (get_escalation_policy mgr (severity alert));
    [apply initial_fan_out_logs | apply logs_extend_refl].
Qed.

Lemma escalate_alert_logs mgr alert_id level :
  logs_extend mgr (escalate_alert mgr alert_id level).
Proof.
  unfold escalate_alert.
  destruct (active_alerts mgr !! alert_id) as [alert|];
    [|apply logs_extend_refl].
  destruct (halts_escalation (status alert)); [apply logs_extend_refl|].
  destruct (get_escalation_policy mgr (severity alert)) as [policy|];
    [|apply logs_extend_refl].
  destruct (dict_get (policy_notification_channels policy) level)
    as [channels|]; [|apply logs_extend_refl].
  set (alert' := set_status ESCALATED (set_escalation_level level alert)).
  set (mgr1 := with_active_alerts _ mgr).
  eapply (logs_extend_trans _ mgr1); [by apply logs_extend_same|].
  destruct (dict_get (escalation_rules policy) level) as [action|].
  - eapply logs_extend_trans; [apply escalation_fan_out_logs|].
    apply execute_escalation_action_logs.
  - apply escalation_fan_out_logs.
Qed.

Lemma step_logs mgr op : logs_extend mgr (step mgr op).
Proof.
  destruct op as [i now args| |i who now|i who notes now|i level]; simpl.
  - unfold create_alert_local.
    destruct (is_suppressed mgr _); [apply logs_extend_refl|].
    destruct (is_duplicate mgr _); [apply logs_extend_refl|].
    eapply logs_extend_db; try reflexivity; simpl; eauto.
  - unfold notification_worker. destruct (alert_queue mgr) as [|i q];
      [apply logs_extend_refl|].
    eapply (logs_extend_trans _ (with_alert_queue q mgr));
      [by apply logs_extend_same | apply process_alert_logs].
  - unfold acknowledge_alert.
    destruct (active_alerts mgr !! i); [|apply logs_extend_refl].
    eapply logs_extend_db; try reflexivity; simpl; eauto.
  - unfold resolve_alert.
    destruct (active_alerts mgr !! i); [|apply logs_extend_refl].
    eapply logs_extend_db; try reflexivity; simpl; eauto.
  - apply escalate_alert_logs.
Qed.

Lemma run_logs ops : forall mgr, logs_extend mgr (run mgr ops).
Proof.
  induction ops as [|op rest IH]; intros mgr; simpl.
  - apply logs_extend_refl.
  - eapply logs_extend_trans; [apply step_logs | apply IH].
Qed.

(** X8: the manager saves an alert only in [create_alert],
    [acknowledge_alert] and [resolve_alert]: every alert row that a run
    writes has the status new, acknowledged or resolved.  An escalation
    changes the alert in memory and never saves it, so the statuses
    escalated and suppressed never reach the [alerts] table. *)
Theorem persisted_status_never_escalated
  (mgr : AdvancedNotificationManager) (ops : list Op) :
  Forall alert_row_ok (db_log mgr) ->
  Forall alert_row_ok (db_log (run mgr ops)).
Proof.
  intros Hinit. destruct (run_logs ops mgr) as (_ & (d & -> & Hd & _) & _).
  by apply Forall_app.
Qed.

(** X9: every notification row that a run writes has the status ["sent"],
    ["failed"] or ["escalated"], and it carries an error message exactly
    when the status is ["failed"]; the status ["delivered"], the only one
    for which [save_notification] fills [delivered_at], is never written. *)
Theorem notification_rows_never_delivered
  (mgr : AdvancedNotificationManager) (ops : list Op) :
  Forall notification_row_ok (db_log mgr) ->
  Forall notification_row_ok (db_log (run mgr ops)).
Proof.
  intros Hinit. destruct (run_logs ops mgr) as (_ & (d & -> & _ & Hd) & _).
  by apply Forall_app.
Qed.

(** ** The index along a run *)

Lemma same_identity_refl a : same_identity a a.
Proof. repeat split. Qed.

Lemma same_identity_trans a b c :
  same_identity a b -> same_identity b c -> same_identity a c.
Proof.
  unfold same_identity.
  intros (?&?&?&?&?&?&?&?&?&?&?) (?&?&?&?&?&?&?&?&?&?&?).
  repeat split; congruence.
Qed.

(** A call leaves the index as it is, or it writes one alert: the alert
    that [create_alert] builds, or the alert that was stored under the id
    with some of its mutable fields assigned. *)
Lemma step_index mgr op :
  active_alerts (step mgr op) = active_alerts mgr
  \/ exists i a',
       active_alerts (step mgr op) = <[i := a']> (active_alerts mgr)
       /\ ((exists now args, op = OpCreate i now args
                             /\ a' = new_alert i now args)
           \/ (exists a, active_alerts mgr !! i = Some a
                         /\ same_identity a a')).
Proof.
  destruct op as [i now args| |i who now|i who notes now|i level]; simpl.
  - unfold create_alert_local.
    destruct (is_suppressed mgr _); [by left|].
    destruct (is_duplicate mgr _); [by left|].
    right. exists i, (new_alert i now args). split; [done|]. left. eauto.
  - left. apply notification_worker_active_alerts.
  - unfold acknowledge_alert.
    destruct (active_alerts mgr !! i) as [a|] eqn:Ha; [|by left].
    right. eexists i, _. split; [reflexivity|]. right.
    exists a. split; [done|]. repeat split.
  - unfold resolve_alert.
    destruct (active_alerts mgr !! i) as [a|] eqn:Ha; [|by left].
    right. eexists i, _. split; [reflexivity|]. right.
    exists a. split; [done|]. repeat split.
  - destruct (escalate_alert_cases mgr i level) as [->|(a & Ha & _ & ->)];
      [by left|].
    right. eexists i, _. split; [reflexivity|]. right.
    exists a. split; [done|]. repeat split.
Qed.

Lemma step_keeps_alert mgr op i :
  is_Some (active_alerts mgr !! i) ->
  is_Some (active_alerts (step mgr op) !! i).
Proof.
  intros Hi. destruct (step_index mgr op) as [->|(j & a' & -> & _)]; [done|].
  destruct (decide (j = i)) as [->|Hne].
  - rewrite lookup_insert_eq. eauto.
  - by rewrite lookup_insert_ne.
Qed.

Lemma run_keeps_alert ops : forall mgr i,
  is_Some (active_alerts mgr !! i) ->
  is_Some (active_alerts (run mgr ops) !! i).
Proof.
  induction ops as [|op rest IH]; intros mgr i Hi; simpl; [done|].
  apply IH. by apply step_keeps_alert.
Qed.

(** X10: no call removes an alert from the active-alert index, resolved
    and closed alerts included: the ids of the index before a run are ids
    of the index after it, and the count that [get_alert_stats] reports
    as ['active_alerts'] never goes down. *)
Theorem alerts_are_never_removed
  (mgr : AdvancedNotificationManager) (ops : list Op) :
  dom (active_alerts mgr) ⊆ dom (active_alerts (run mgr ops))
  /\ (size (active_alerts mgr) <= size (active_alerts (run mgr ops)))%nat.
Proof.
  assert (Hsub : dom (active_alerts mgr) ⊆ dom (active_alerts (run mgr ops))).
  { intros i Hi. apply elem_of_dom. apply run_keeps_alert.
    by apply elem_of_dom. }
  split; [done|].
  rewrite <- !size_dom. by apply subseteq_size.
Qed.

Lemma step_well_keyed mgr op :
  index_well_keyed mgr -> index_well_keyed (step mgr op).
Proof.
  intros Hwk j b. destruct (step_index mgr op) as [->|(i & a' & -> & Hcase)];
    [apply Hwk|].
  intros Hj. destruct (decide (i = j)) as [->|Hne].
  - rewrite lookup_insert_eq in Hj. injection Hj as <-.
    destruct Hcase as [(now & args & _ & ->) | (a & Ha & Hid & _)]; [done|].
    rewrite Hid. by apply Hwk.
  - rewrite lookup_insert_ne in Hj by done. by apply Hwk.
Qed.

(** X11: every alert of the index is stored under its own id, and every
    call keeps it so; the notification rows and the channel calls, which
    read [alert.id], therefore name the key under which the alert is
    indexed. *)
Theorem index_stays_well_keyed
  (mgr : AdvancedNotificationManager) (ops : list Op) :
  index_well_keyed mgr -> index_well_keyed (run mgr ops).
Proof.
  revert mgr. induction ops as [|op rest IH]; intros mgr Hwk; simpl; [done|].
  apply IH. by apply step_well_keyed.
Qed.

Lemma step_identity mgr op alert_id alert :
  active_alerts mgr !! alert_id = Some alert ->
  id_not_drawn alert_id op ->
  exists alert',
    active_alerts (step mgr op) !! alert_id = Some alert'
    /\ same_identity alert alert'.
Proof.
  intros Ha Hfresh.
  destruct (step_index mgr op) as [->|(i & a' & -> & Hcase)].
  - exists alert. split; [done|apply same_identity_refl].
  - destruct (decide (i = alert_id)) as [->|Hne].
    + rewrite lookup_insert_eq. exists a'. split; [done|].
      destruct Hcase as [(now & args & -> & _) | (a & Ha2 & Hsame)].
      * by simpl in Hfresh.
      * congruence.
    + rewrite lookup_insert_ne by done.
      exists alert. split; [done|apply same_identity_refl].
Qed.

(** X12: as long as no creation draws its id again, an alert of the index
    keeps its id, title, message, severity, category, source, timestamp,
    de-duplication key, tags, [assigned_to] and [suppression_rules]
    through every call: acknowledge, resolve and escalate assign none of
    them, and nothing ever assigns [assigned_to]. *)
Theorem identity_fields_are_immutable
  (mgr : AdvancedNotificationManager) (ops : list Op) (alert_id : string)
  (alert : Alert) :
  active_alerts mgr !! alert_id = Some alert ->
  Forall (id_not_drawn alert_id) ops ->
  exists alert',
    active_alerts (run mgr ops) !! alert_id = Some alert'
    /\ same_identity alert alert'.
Proof.
  revert mgr alert. induction ops as [|op rest IH]; intros mgr alert Ha Hfresh.
  - exists alert. split; [done|apply same_identity_refl].
  - apply Forall_cons_1 in Hfresh as [Hop Hrest]. simpl.
    destruct (step_identity mgr op alert_id alert Ha Hop)
      as (alert1 & Ha1 & Hsame1).
    destruct (IH (step mgr op) alert1 Ha1 Hrest) as (alert' & Ha' & Hsame').
    exists alert'. split; [done|].
    by apply (same_identity_trans alert alert1 alert').
Qed.

Lemma arm_timers_alert policy alert levels :
  Forall (fun t => timer_alert t = id alert) (arm_timers policy alert levels).
Proof.
  induction levels as [|l rest IH]; [constructor|].
  rewrite arm_timers_cons.
  destruct (dict_get (time_thresholds policy) (KLevel l)); [|done].
  destruct (escalation_due alert z); by constructor.
Qed.

Lemma process_alert_timers mgr alert_id :
  timers (process_alert mgr alert_id) = timers mgr
  \/ exists alert policy levels,
       active_alerts mgr !! alert_id = Some alert
       /\ timers (process_alert mgr alert_id)
          = timers mgr ++ arm_timers policy alert levels.
Proof.
  unfold process_alert.
  destruct (active_alerts mgr !! alert_id) as [alert|] eqn:Ha; [|by left].
  destruct (send_initial_notifications_frame mgr alert)
    as (Hp & _ & _ & _ & _ & Ht & _).
  unfold schedule_escalation.
  destruct (get_escalation_policy _ (severity alert)) as [policy|];
    [|by left].
  right. exists alert, policy, (py_range 1 (max_escalation_level policy + 1)).
  split; [done|]. simpl. by rewrite Ht.
Qed.

Lemma escalate_alert_queue_timers mgr alert_id level :
  alert_queue (escalate_alert mgr alert_id level) = alert_queue mgr
  /\ timers (escalate_alert mgr alert_id level) = timers mgr.
Proof.
  unfold escalate_alert.
  destruct (active_alerts mgr !! alert_id) as [alert|]; [|done].
  destruct (halts_escalation (status alert)); [done|].
  destruct (get_escalation_policy mgr (severity alert)) as [policy|]; [|done].
  destruct (dict_get (policy_notification_channels policy) level)
    as [channels|]; [|done].
  set (alert' := set_status ESCALATED (set_escalation_level level alert)).
  set (mgr1 := with_active_alerts _ mgr).
  destruct (escalation_fan_out_frame channels mgr1 alert')
    as (_ & _ & _ & _ & Hq & Ht & _).
  destruct (dict_get (escalation_rules policy) level) as [action|]; [|done].
  destruct (execute_escalation_action_frame
              (escalation_fan_out mgr1 alert' channels) alert' action)
    as (_ & _ & _ & _ & -> & -> & _).
  done.
Qed.

Lemma step_references mgr op :
  index_well_keyed mgr -> references_valid mgr ->
  references_valid (step mgr op).
Proof.
  intros Hwk [Hq Ht].
  assert (Hkeep : forall (A : Type) (f : A -> string) (l : list A),
            Forall (fun x => is_Some (active_alerts mgr !! f x)) l ->
            Forall (fun x => is_Some (active_alerts (step mgr op) !! f x)) l).
  { intros A f l. apply List.Forall_impl. intros x. apply step_keeps_alert. }
  pose proof (Hkeep _ (fun i => i) _ Hq) as Hq'.
  pose proof (Hkeep _ timer_alert _ Ht) as Ht'.
  unfold references_valid.
  destruct op as [i now args| |i who now|i who notes now|i level].
  - simpl in *. unfold create_alert_local in *.
    destruct (is_suppressed mgr _); [by split|].
    destruct (is_duplicate mgr _); [by split|]. simpl in *.
    split; [|done]. apply Forall_app. split; [done|].
    constructor; [|constructor]. rewrite lookup_insert_eq. eauto.
  - simpl in *. split.
    + destruct (notification_worker_frame mgr) as (_ & _ & _ & ->).
      destruct (alert_queue mgr); [done|].
      by apply Forall_cons_1 in Hq' as [_ ?].
    + unfold notification_worker in *.
      destruct (alert_queue mgr) as [|i q]; [done|].
      destruct (process_alert_timers (with_alert_queue q mgr) i)
        as [-> | (alert & policy & levels & Ha & ->)]; [done|].
      apply Forall_app. split; [done|]. simpl in Ha.
      eapply List.Forall_impl; [|apply arm_timers_alert].
      intros t ->. rewrite (Hwk i alert Ha).
      rewrite process_alert_active_alerts. simpl. eauto.
  - simpl in *. unfold acknowledge_alert in *.
    by destruct (active_alerts mgr !! i).
  - simpl in *. unfold resolve_alert in *.
    by destruct (active_alerts mgr !! i).
  - simpl in *. destruct (escalate_alert_queue_timers mgr i level) as [-> ->].
    by split.
Qed.

(** X13: the queue and the timers only ever refer to alerts that are in
    the index: an id is queued when its alert is stored, timers are armed
    for the alert under its id, and no alert is removed.  A worker or a
    timer callback therefore always finds the object it was given. *)
Theorem references_stay_valid
  (mgr : AdvancedNotificationManager) (ops : list Op) :
  index_well_keyed mgr -> references_valid mgr ->
  index_well_keyed (run mgr ops) /\ references_valid (run mgr ops).
Proof.
  revert mgr. induction ops as [|op rest IH]; intros mgr Hwk Href; simpl;
    [done|].
  apply IH; [by apply step_well_keyed | by apply step_references].
Qed.

(** ** Creation and de-duplication together *)

Lemma create_alert_accepted mgr alert_id now args :
  is_suppressed mgr (new_alert alert_id now args) = false ->
  is_duplicate mgr (new_alert alert_id now args) = false ->
  snd (create_alert mgr alert_id now args)
  = with_alert_queue (alert_queue mgr ++ [alert_id])
      (save_alert
         (with_active_alerts
            (<[alert_id := new_alert alert_id now args]> (active_alerts mgr))
            mgr)
         (new_alert alert_id now args)).
Proof.
  intros Hs Hd. unfold create_alert, create_alert_local. cbv zeta.
  by rewrite Hs, Hd.
Qed.

(** X14: when [create_alert] accepts an alert, the alert is stored under
    its id with the status new and the escalation level 0, saved once and
    put at the end of the queue; if it has a non-empty de-duplication key,
    every later creation with the same key leaves the manager as it is
    (it returns an id and stores nothing), for as long as the manager is
    in that state. *)
Theorem accepted_alert_blocks_its_key
  (mgr : AdvancedNotificationManager) (alert_id : string) (now : datetime)
  (args : create_args) (k : string) :
  is_suppressed mgr (new_alert alert_id now args) = false ->
  is_duplicate mgr (new_alert alert_id now args) = false ->
  arg_dedup_key args = Some k -> k <> "" ->
  let mgr' := snd (create_alert mgr alert_id now args) in
  active_alerts mgr' = <[alert_id := new_alert alert_id now args]>
                         (active_alerts mgr)
  /\ status (new_alert alert_id now args) = NEW
  /\ escalation_level (new_alert alert_id now args) = 0
  /\ db_log mgr' = db_log mgr ++ [SaveAlert (new_alert alert_id now args)]
  /\ alert_queue mgr' = alert_queue mgr ++ [alert_id]
  /\ forall alert_id2 now2 args2,
       arg_dedup_key args2 = Some k ->
       create_alert mgr' alert_id2 now2 args2 = (alert_id2, mgr').
Proof.
  intros Hs Hd Hk Hne mgr'. unfold mgr'.
  rewrite (create_alert_accepted mgr alert_id now args Hs Hd).
  repeat split.
  intros alert_id2 now2 args2 Hk2.
  unfold create_alert, create_alert_local. cbv zeta.
  match goal with |- context [is_suppressed ?m ?a] =>
    destruct (is_suppressed m a); [done|] end.
  match goal with |- context [is_duplicate ?m ?a] =>
    assert (Hdup : is_duplicate m a = true) end.
  { apply (is_duplicate_values _ _ k); [done|done|].
    exists alert_id, (new_alert alert_id now args).
    split; [apply lookup_insert_eq|]. by split. }
  by rewrite Hdup.
Qed.

Lemma escalate_alert_store mgr alert_id alert level policy channels :
  active_alerts mgr !! alert_id = Some alert ->
  halts_escalation (status alert) = false ->
  get_escalation_policy mgr (severity alert) = Some policy ->
  dict_get (policy_notification_channels policy) level = Some channels ->
  active_alerts (escalate_alert mgr alert_id level)
  = <[alert_id := set_status ESCALATED (set_escalation_level level alert)]>
      (active_alerts mgr).
Proof.
  intros Ha Hh Hp Hc. unfold escalate_alert. rewrite Ha, Hh, Hp, Hc.
  set (alert' := set_status ESCALATED (set_escalation_level level alert)).
  set (mgr1 := with_active_alerts _ mgr).
  destruct (escalation_fan_out_frame channels mgr1 alert')
    as (_ & _ & _ & Hact & _).
  destruct (dict_get (escalation_rules policy) level) as [action|]; [|done].
  by destruct (execute_escalation_action_frame
                 (escalation_fan_out mgr1 alert' channels) alert' action)
    as (_ & _ & _ & -> & _).
Qed.

(** An alert whose status does not count for de-duplication, written
    under an id, takes the alert that was there out of the search. *)
Lemma is_duplicate_after_release mgr mgr' alert_id released probe :
  active_alerts mgr' = <[alert_id := released]> (active_alerts mgr) ->
  dedup_status (status released) = false ->
  is_duplicate mgr' probe = true
  <-> exists k,
        dedup_key probe = Some k /\ k <> ""
        /\ exists i existing,
             i <> alert_id
             /\ active_alerts mgr !! i = Some existing
             /\ dedup_key existing = Some k
             /\ dedup_status (status existing) = true.
Proof.
  intros Hact Hrel. split.
  - intros Hdup. destruct (dedup_key probe) as [k|] eqn:Hk;
      [|unfold is_duplicate in Hdup; by rewrite Hk in Hdup].
    destruct (decide (k = "")) as [->|Hne];
      [unfold is_duplicate in Hdup; by rewrite Hk in Hdup|].
    exists k. split; [done|]. split; [done|].
    destruct (proj1 (is_duplicate_values mgr' probe k Hk Hne) Hdup)
      as (i & e & Hi & Hkey & Hst).
    rewrite Hact in Hi. exists i, e.
    destruct (decide (alert_id = i)) as [->|Hni].
    + rewrite lookup_insert_eq in Hi. injection Hi as <-. congruence.
    + rewrite lookup_insert_ne in Hi by done.
      repeat split; try done; congruence.
  - intros (k & Hk & Hne & i & e & Hni & Hi & Hkey & Hst).
    apply (is_duplicate_values mgr' probe k Hk Hne).
    exists i, e. rewrite Hact, lookup_insert_ne by congruence. by repeat split.
Qed.

(** X15: an alert that is resolved, or escalated, no longer counts for
    de-duplication: after [resolve_alert], and after an [escalate_alert]
    that passes its guards, a new alert is a duplicate exactly when some
    other alert of the index with the status new, acknowledged or
    in_progress has its key.  So while an alert is escalated a second
    alert with the same key is accepted. *)
Theorem resolved_or_escalated_alert_frees_its_key
  (mgr : AdvancedNotificationManager) (alert_id : string) (alert probe : Alert) :
  active_alerts mgr !! alert_id = Some alert ->
  let others_hold_key :=
    exists k,
      dedup_key probe = Some k /\ k <> ""
      /\ exists i existing,
           i <> alert_id
           /\ active_alerts mgr !! i = Some existing
           /\ dedup_key existing = Some k
           /\ dedup_status (status existing) = true in
  (forall who notes now,
     is_duplicate (snd (resolve_alert mgr alert_id who notes now)) probe = true
     <-> others_hold_key)
  /\ (forall level policy channels,
        halts_escalation (status alert) = false ->
        get_escalation_policy mgr (severity alert) = Some policy ->
        dict_get (policy_notification_channels policy) level = Some channels ->
        is_duplicate (escalate_alert mgr alert_id level) probe = true
        <-> others_hold_key).
Proof.
  intros Ha others_hold_key. split.
  - intros who notes now.
    eapply is_duplicate_after_release.
    + unfold resolve_alert. rewrite Ha. reflexivity.
    + reflexivity.
  - intros level policy channels Hh Hp Hc.
    eapply is_duplicate_after_release;
      [apply (escalate_alert_store mgr alert_id alert level policy channels
                Ha Hh Hp Hc)
      |reflexivity].
Qed.

(** X16: acknowledging an alert does not stop its escalation: after
    [acknowledge_alert], a timer callback whose level has channels in the
    policy sets the status to escalated and the escalation level to its
    level, and the alert keeps the name of who acknowledged it. *)
Theorem acknowledged_alert_still_escalates
  (mgr : AdvancedNotificationManager) (alert_id who : string) (now : datetime)
  (alert : Alert) (level : Z) (policy : EscalationPolicy)
  (channels : list NotificationChannel) :
  active_alerts mgr !! alert_id = Some alert ->
  get_escalation_policy mgr (severity alert) = Some policy ->
  dict_get (policy_notification_channels policy) level = Some channels ->
  let acked := snd (acknowledge_alert mgr alert_id who now) in
  exists alert',
    active_alerts (escalate_alert acked alert_id level) !! alert_id
    = Some alert'
    /\ status alert' = ESCALATED
    /\ escalation_level alert' = level
    /\ acknowledged_by alert' = Some who
    /\ acknowledged_at alert' = Some now.
Proof.
  intros Ha Hp Hc acked. unfold acked, acknowledge_alert. rewrite Ha.
  cbn [snd].
  set (alert1 := set_acknowledged who now (set_status ACKNOWLEDGED alert)).
  set (mgr1 := save_alert _ alert1).
  assert (Ha1 : active_alerts mgr1 !! alert_id = Some alert1)
    by apply lookup_insert_eq.
  destruct (escalate_alert_effect mgr1 alert_id alert1 level policy channels
              Ha1 eq_refl Hp Hc) as (Hnew & _).
  eexists. split; [exact Hnew|]. by repeat split.
Qed.

(** ** A turn of a notification worker *)

Lemma initial_fan_out_send_log channels : forall mgr alert,
  send_log (initial_fan_out mgr alert channels)
  = send_log mgr
    ++ map (fun c => mk_SendCall c (id alert) false) (registered mgr channels).
Proof.
  induction channels as [|c rest IH]; intros mgr alert; simpl.
  - by rewrite app_nil_r.
  - destruct (dict_get (notification_channels mgr) c) as [impl|] eqn:Hc.
    + rewrite bool_decide_eq_true_2 by eauto. rewrite IH. simpl.
      destruct (impl alert false);
        rewrite (registered_same mgr) by reflexivity;
        simpl; by rewrite <- app_assoc.
    + rewrite bool_decide_eq_false_2 by (intros [? ?]; congruence).
      apply IH.
Qed.

Lemma process_alert_effect mgr alert_id alert :
  active_alerts mgr !! alert_id = Some alert ->
  match get_escalation_policy mgr (severity alert) with
  | None => process_alert mgr alert_id = mgr
  | Some policy =>
      let channels :=
        registered mgr
          (default [] (dict_get (policy_notification_channels policy) 0)) in
      send_log (process_alert mgr alert_id)
      = send_log mgr ++ map (fun c => mk_SendCall c (id alert) false) channels
      /\ db_log (process_alert mgr alert_id)
         = db_log mgr ++ map (initial_record mgr alert) channels
      /\ timers (process_alert mgr alert_id)
         = timers mgr
           ++ arm_timers policy alert
                (py_range 1 (max_escalation_level policy + 1))
  end.
Proof.
  intros Ha. unfold process_alert. rewrite Ha.
  pose proof (send_initial_notifications_frame mgr alert) as Hframe.
  unfold send_initial_notifications in *.
  destruct (get_escalation_policy mgr (severity alert)) as [policy|] eqn:Hp.
  - set (chs := default [] (dict_get (policy_notification_channels policy) 0))
      in *.
    destruct Hframe as (Hfp & _ & _ & _ & _ & Hft & _).
    unfold schedule_escalation.
    rewrite (get_escalation_policy_same mgr (initial_fan_out mgr alert chs)
               _ Hfp), Hp.
    cbn [send_log db_log timers with_timers].
    by rewrite initial_fan_out_send_log, initial_fan_out_db_log, Hft.
  - unfold schedule_escalation. by rewrite Hp.
Qed.

(** X17: a turn of a notification worker takes the alert at the head of
    the queue and leaves the index as it is.  Without a policy for the
    severity of the alert nothing is sent, recorded or armed.  With a
    policy, every channel of level 0 that is registered is called once, in
    the order of the policy, and gets one row (["sent"], or ["failed"] with
    the error when the call raises, after which the next channel is still
    called); a channel that is not registered is skipped without a trace;
    then the timers are armed, level by level, up to the first level whose
    due time cannot be computed. *)
Theorem notification_worker_processes_head
  (mgr : AdvancedNotificationManager) (alert_id : string)
  (rest : list string) (alert : Alert) :
  alert_queue mgr = alert_id :: rest ->
  active_alerts mgr !! alert_id = Some alert ->
  let mgr' := notification_worker mgr in
  alert_queue mgr' = rest
  /\ active_alerts mgr' = active_alerts mgr
  /\ match get_escalation_policy mgr (severity alert) with
     | None =>
         send_log mgr' = send_log mgr /\ db_log mgr' = db_log mgr
         /\ timers mgr' = timers mgr
     | Some policy =>
         let channels :=
           registered mgr
             (default [] (dict_get (policy_notification_channels policy) 0)) in
         send_log mgr'
         = send_log mgr
           ++ map (fun c => mk_SendCall c (id alert) false) channels
         /\ db_log mgr' = db_log mgr ++ map (initial_record mgr alert) channels
         /\ timers mgr'
            = timers mgr
              ++ arm_timers policy alert
                   (py_range 1 (max_escalation_level policy + 1))
     end.
Proof.
  intros Hq Ha mgr'.
  destruct (notification_worker_frame mgr) as (_ & _ & Hact & Hqueue).
  fold mgr' in Hact, Hqueue. rewrite Hq in Hqueue.
  split; [done|]. split; [done|].
  unfold mgr', notification_worker. rewrite Hq.
  pose proof (process_alert_effect (with_alert_queue rest mgr) alert_id alert
                Ha) as Heff.
  change (get_escalation_policy (with_alert_queue rest mgr) (severity alert))
    with (get_escalation_policy mgr (severity alert)) in Heff.
  destruct (get_escalation_policy mgr (severity alert)) as [policy|].
  - exact Heff.
  - by rewrite Heff.
Qed.

(** ** What an escalation does *)

(** X18: an escalation that passes its guards (the alert is neither
    resolved nor closed, a policy lists its severity and has channels for
    the level) writes the status escalated and the level to the alert in
    memory, calls every registered channel of the level once with
    [is_escalation=True], and writes one ["escalated"] row for each call
    that returns and nothing for a call that raises.  It does not save the
    alert, does not touch the queue or the timers, and whatever the action
    of the level is, [AUTO_RESOLUTION] included, the alert is left
    escalated. *)
Theorem escalate_alert_postcondition
  (mgr : AdvancedNotificationManager) (alert_id : string) (alert : Alert)
  (level : Z) (policy : EscalationPolicy)
  (channels : list NotificationChannel) :
  active_alerts mgr !! alert_id = Some alert ->
  halts_escalation (status alert) = false ->
  get_escalation_policy mgr (severity alert) = Some policy ->
  dict_get (policy_notification_channels policy) level = Some channels ->
  let alert' := set_status ESCALATED (set_escalation_level level alert) in
  let mgr' := escalate_alert mgr alert_id level in
  active_alerts mgr' = <[alert_id := alert']> (active_alerts mgr)
  /\ send_log mgr'
     = send_log mgr
       ++ map (fun c => mk_SendCall c (id alert) true) (registered mgr channels)
  /\ db_log mgr'
     = db_log mgr
       ++ map (fun c => SaveNotification (id alert) c "escalated" None)
            (delivered mgr alert' true channels)
  /\ alert_queue mgr' = alert_queue mgr
  /\ timers mgr' = timers mgr
  /\ (dict_get (escalation_rules policy) level = None ->
      action_log mgr' = action_log mgr)
  /\ (length (action_log mgr') <= length (action_log mgr) + 1)%nat.
Proof.
  intros Ha Hh Hp Hc alert' mgr'.
  pose proof (escalate_alert_store mgr alert_id alert level policy channels
                Ha Hh Hp Hc) as Hstore.
  destruct (escalate_alert_effect mgr alert_id alert level policy channels
              Ha Hh Hp Hc) as (_ & Hsend).
  destruct (escalate_alert_queue_timers mgr alert_id level) as (Hq & Ht).
  split; [done|]. split; [done|].
  split; [|split; [done|split; [done|]]].
  - unfold mgr', escalate_alert. rewrite Ha, Hh, Hp, Hc.
    fold alert'. set (mgr1 := with_active_alerts _ mgr).
    assert (Hdb : db_log (escalation_fan_out mgr1 alert' channels)
                  = db_log mgr
                    ++ map (fun c => SaveNotification (id alert) c "escalated" None)
                         (delivered mgr alert' true channels))
      by (rewrite escalation_fan_out_db_log; reflexivity).
    destruct (dict_get (escalation_rules policy) level) as [action|]; [|done].
    by destruct (execute_escalation_action_frame
                   (escalation_fan_out mgr1 alert' channels) alert' action)
      as (_ & _ & _ & _ & _ & _ & _ & ->).
  - unfold mgr', escalate_alert. rewrite Ha, Hh, Hp, Hc.
    fold alert'. set (mgr1 := with_active_alerts _ mgr).
    destruct (escalation_fan_out_frame channels mgr1 alert')
      as (_ & _ & _ & _ & _ & _ & Hal).
    split.
    + intros ->. by rewrite Hal.
    + destruct (dict_get (escalation_rules policy) level) as [action|];
        [|rewrite Hal; simpl; lia].
      destruct action; simpl; rewrite ?length_app, Hal; simpl; lia.
Qed.

(** ** The periodic escalation pass *)

Lemma same_but_actions_refl m : same_but_actions m m.
Proof. repeat split. Qed.

Lemma same_but_actions_trans m1 m2 m3 :
  same_but_actions m1 m2 -> same_but_actions m2 m3 -> same_but_actions m1 m3.
Proof.
  unfold same_but_actions. intros (?&?&?&?&?&?&?&?) (?&?&?&?&?&?&?&?).
  repeat split; congruence.
Qed.

Lemma py_max_by_In {A : Type} (key : A -> Z) (l : list A) (x : A) :
  In x l -> exists best, py_max_by key l = Some best
                         /\ In best l /\ key x <= key best.
Proof.
  destruct l as [|x0 rest]; [done|]. intros Hx. simpl.
  eexists. split; [reflexivity|].
  assert (H : forall l0 b,
            (In (fold_left (fun best y => if key best <? key y then y else best)
                   l0 b) (b :: l0))
            /\ forall y, In y (b :: l0) ->
                 key y <= key (fold_left
                                 (fun best y => if key best <? key y then y
                                                else best) l0 b)).
  { induction l0 as [|z l0 IH]; intros b; simpl.
    - split; [by left|]. intros y [<-|[]]. lia.
    - destruct (IH (if key b <? key z then z else b)) as [Hin Hmax].
      split.
      + destruct Hin as [Hin|Hin]; [|by right; right].
        rewrite <- Hin. destruct (key b <? key z); [right; by left|by left].
      + intros y Hy.
        assert (Hstep : key y <= key (if key b <? key z then z else b)
                        \/ In y l0).
        { destruct Hy as [<-|[<-|Hy]]; [| |by right]; left;
            destruct (Z.ltb_spec (key b) (key z)); lia. }
        destruct Hstep as [Hle|Hy'].
        * etransitivity; [exact Hle|]. apply Hmax. by left.
        * apply Hmax. by right. }
  destruct (H rest x0) as [Hin Hmax]. split; [done|by apply Hmax].
Qed.

Lemma first_policy_lists policies sev policy :
  first_policy policies sev = Some policy -> In sev (severity_levels policy).
Proof.
  induction policies as [|[n p] rest IH]; simpl; [done|].
  destruct (bool_decide (sev ∈ severity_levels p)) eqn:Hsev; [|done].
  intros [= <-]. by apply bool_decide_eq_true, list_elem_of_In in Hsev.
Qed.

Lemma check_escalation_done mgr current_time alert :
  exists mgr', check_escalation mgr current_time alert = PassDone mgr'
               /\ same_but_actions mgr mgr'.
Proof.
  unfold check_escalation.
  destruct (halts_escalation (status alert));
    [eexists; split; [done|apply same_but_actions_refl]|].
  destruct (get_escalation_policy mgr (severity alert)) as [policy|] eqn:Hp;
    [|eexists; split; [done|apply same_but_actions_refl]].
  apply first_policy_lists in Hp.
  destruct (py_max_by_In (severity_threshold policy) _ _ Hp)
    as (s & -> & _ & _).
  destruct (dict_get (time_thresholds policy) (KSeverity s)) as [th|];
    [|eexists; split; [done|apply same_but_actions_refl]].
  destruct (negb (th =? 0) && _);
    [|eexists; split; [done|apply same_but_actions_refl]].
  destruct (dict_get (escalation_rules policy) (max_escalation_level policy))
    as [action|]; [|eexists; split; [done|apply same_but_actions_refl]].
  eexists. split; [done|]. destruct action; repeat split.
Qed.

Lemma process_escalations_loop_done alerts : forall mgr current_time,
  exists mgr', process_escalations_loop mgr current_time alerts = PassDone mgr'
               /\ same_but_actions mgr mgr'.
Proof.
  induction alerts as [|a rest IH]; intros mgr current_time; simpl.
  - eexists. split; [done|apply same_but_actions_refl].
  - destruct (check_escalation_done mgr current_time a) as (m1 & -> & H1).
    destruct (IH m1 current_time) as (m2 & -> & H2).
    eexists. split; [done|]. by apply (same_but_actions_trans mgr m1 m2).
Qed.

(** X19: a pass of [process_escalations] always reaches the end of its
    loop: [max] is never called on an empty list, because the policy that
    [get_escalation_policy] returns lists the severity of the alert.  The
    pass changes nothing of the manager but the log of the actions: no
    alert changes, no channel is called, nothing is persisted. *)
Theorem process_escalations_only_runs_actions
  (mgr : AdvancedNotificationManager) (current_time : datetime)
  (alerts : list Alert) :
  (exists mgr',
     process_escalations_loop mgr current_time alerts = PassDone mgr'
     /\ same_but_actions mgr mgr')
  /\ (exists mgr',
        process_escalations mgr current_time = PassDone mgr'
        /\ same_but_actions mgr mgr').
Proof.
  split; apply process_escalations_loop_done.
Qed.

Lemma dict_get_level_keyed (d : list (ThresholdKey * Z)) (s : AlertSeverity) :
  Forall (fun kv => exists n, fst kv = KLevel n) d ->
  dict_get d (KSeverity s) = None.
Proof.
  induction d as [|[k v] rest IH]; simpl; [done|].
  intros Hall. apply Forall_cons_1 in Hall as [(n & Hn) Hrest].
  simpl in Hn. subst k. destruct (decide (KLevel n = KSeverity s));
    [discriminate|by apply IH].
Qed.

Lemma first_policy_In policies sev policy :
  first_policy policies sev = Some policy ->
  exists policy_name, In (policy_name, policy) policies.
Proof.
  induction policies as [|[n p] rest IH]; simpl; [done|].
  destruct (bool_decide (sev ∈ severity_levels p)).
  - intros [= <-]. exists n. by left.
  - intros H. destruct (IH H) as (n' & Hin). exists n'. by right.
Qed.

(** X20: when the [time_thresholds] of every policy are keyed by levels,
    as [schedule_escalation] reads them, a pass of [process_escalations]
    does nothing at all: it looks the thresholds up by severity, finds no
    deadline, and runs no action, however old the alerts are. *)
Theorem level_keyed_thresholds_disable_the_pass
  (mgr : AdvancedNotificationManager) (current_time : datetime)
  (alerts : list Alert) :
  Forall (fun np => Forall (fun kv => exists n, fst kv = KLevel n)
                      (time_thresholds (snd np)))
    (escalation_policies mgr) ->
  process_escalations_loop mgr current_time alerts = PassDone mgr.
Proof.
  intros Hall. induction alerts as [|a rest IH]; simpl; [done|].
  assert (Hcheck : check_escalation mgr current_time a = PassDone mgr).
  { unfold check_escalation.
    destruct (halts_escalation (status a)); [done|].
    destruct (get_escalation_policy mgr (severity a)) as [policy|] eqn:Hp;
      [|done].
    pose proof (first_policy_lists _ _ _ Hp) as Hin.
    destruct (py_max_by_In (severity_threshold policy) _ _ Hin)
      as (s & -> & _ & _).
    destruct (first_policy_In _ _ _ Hp) as (n & Hnp).
    rewrite List.Forall_forall in Hall. specialize (Hall _ Hnp). simpl in Hall.
    by rewrite dict_get_level_keyed. }
  by rewrite Hcheck.
Qed.

(** X21: the deadline of the periodic pass is the largest threshold that
    the policy gives to any of its severities, not the threshold of the
    severity of the alert: when a turn of the loop runs an action for an
    alert, the alert is neither resolved nor closed and its age exceeds
    the threshold of every severity of its policy. *)
Theorem periodic_action_waits_for_largest_threshold
  (mgr : AdvancedNotificationManager) (current_time : datetime)
  (alert : Alert) (policy : EscalationPolicy) :
  get_escalation_policy mgr (severity alert) = Some policy ->
  action_log (pass_manager (check_escalation mgr current_time alert))
  <> action_log mgr ->
  halts_escalation (status alert) = false
  /\ forall s, In s (severity_levels policy) ->
       timedelta_seconds (severity_threshold policy s)
       < current_time - timestamp alert.
Proof.
  intros Hp. unfold check_escalation. rewrite Hp.
  destruct (halts_escalation (status alert)); [done|].
  pose proof (first_policy_lists _ _ _ Hp) as Hin.
  destruct (py_max_by_In (severity_threshold policy) _ _ Hin)
    as (best & Hbest & _ & _).
  rewrite Hbest.
  destruct (dict_get (time_thresholds policy) (KSeverity best)) as [th|] eqn:Hth;
    [|done].
  destruct (negb (th =? 0)
            && (timedelta_seconds th <? current_time - timestamp alert))
    eqn:Hdue; [|done].
  intros _. split; [done|]. intros s Hs.
  destruct (py_max_by_In (severity_threshold policy) _ _ Hs)
    as (best' & Hbest' & _ & Hle).
  rewrite Hbest in Hbest'. injection Hbest' as <-.
  apply andb_true_iff in Hdue as [_ Hlt]. apply Z.ltb_lt in Hlt.
  assert (Hkey : severity_threshold policy best = th)
    by (unfold severity_threshold; by rewrite Hth).
  unfold timedelta_seconds in *. lia.
Qed.

(** ** The further properties at concrete inputs *)

Lemma schedule_escalation_exact_witness :
  get_escalation_policy overflow_mgr (severity a1_new) = Some overflow_policy
  /\ schedule_escalation overflow_mgr a1_new
     = with_timers [mk_Timer (timedelta_seconds 300) "a1" 1] overflow_mgr
  /\ exists armed,
       schedule_escalation overflow_mgr a1_new
       = with_timers (timers overflow_mgr ++ armed) overflow_mgr
       /\ (forall t,
             In t armed <->
             exists level threshold,
               1 <= level <= max_escalation_level overflow_policy
               /\ dict_get (time_thresholds overflow_policy) (KLevel level)
                  = Some threshold
               /\ (forall l th,
                     1 <= l <= level ->
                     dict_get (time_thresholds overflow_policy) (KLevel l)
                     = Some th ->
                     is_Some (escalation_due a1_new th))
               /\ t = mk_Timer (timestamp a1_new + timedelta_seconds threshold)
                        (id a1_new) level)
       /\ StronglySorted Z.lt (map timer_level armed).
Proof.
  split; [reflexivity|]. split; [reflexivity|].
  exact (schedule_escalation_exact overflow_mgr a1_new overflow_policy eq_refl).
Defined.

Lemma severity_keyed_thresholds_arm_nothing_witness :
  get_escalation_policy emergency_mgr (severity emergency_alert)
  = Some emergency_policy
  /\ schedule_escalation emergency_mgr emergency_alert = emergency_mgr.
Proof.
  split; [reflexivity|].
  apply (severity_keyed_thresholds_arm_nothing emergency_mgr emergency_alert
           emergency_policy eq_refl).
  repeat (constructor; [eexists; reflexivity|]). constructor.
Defined.

Lemma malformed_rule_is_ignored_witness :
  strptime_HM (default "00:00" (start_time malformed_rule)) = None
  /\ is_suppressed_loop
       ([] ++ ("broken", malformed_rule) :: [("night", night_rule)])
       (low_alert_at (timedelta_seconds (12 * 3600)))
     = is_suppressed_loop ([] ++ [("night", night_rule)])
         (low_alert_at (timedelta_seconds (12 * 3600))).
Proof.
  split; [reflexivity|].
  apply (malformed_rule_is_ignored [] [("night", night_rule)] "broken"
           malformed_rule).
  left. reflexivity.
Defined.

Lemma default_window_misses_last_minute_witness :
  check_rule catch_all_rule
    (low_alert_at (timedelta_seconds (23 * 3600 + 59 * 60 + 30)))
  = RuleReturnsTrue
  <-> timestamp (low_alert_at (timedelta_seconds (23 * 3600 + 59 * 60 + 30)))
        mod microseconds_per_day <= 86340000000.
Proof.
  apply (default_window_misses_last_minute catch_all_rule);
    try reflexivity.
  simpl. discriminate.
Defined.

Lemma persisted_status_never_escalated_witness :
  Forall alert_row_ok (db_log scenario_mgr)
  /\ Forall alert_row_ok (db_log (run scenario_mgr small_run)).
Proof.
  assert (Hinit : Forall alert_row_ok (db_log scenario_mgr)) by constructor.
  split; [exact Hinit|].
  exact (persisted_status_never_escalated scenario_mgr small_run Hinit).
Defined.

Lemma notification_rows_never_delivered_witness :
  Forall notification_row_ok (db_log scenario_mgr)
  /\ Forall notification_row_ok (db_log (run scenario_mgr small_run)).
Proof.
  assert (Hinit : Forall notification_row_ok (db_log scenario_mgr))
    by constructor.
  split; [exact Hinit|].
  exact (notification_rows_never_delivered scenario_mgr small_run Hinit).
Defined.

Lemma scenario_processed_well_keyed : index_well_keyed scenario_processed.
Proof.
  assert (Hidx : active_alerts scenario_processed = {[ "a1" := a1_new ]})
    by (vm_compute; reflexivity).
  intros i a. rewrite Hidx. intros Hi.
  apply lookup_singleton_Some in Hi as [<- <-]. reflexivity.
Defined.

Lemma scenario_processed_references : references_valid scenario_processed.
Proof.
  split.
  - constructor.
  - constructor; [|constructor]. exists a1_new. vm_compute. reflexivity.
Defined.

Lemma index_stays_well_keyed_witness :
  index_well_keyed scenario_processed
  /\ index_well_keyed (run scenario_processed small_run).
Proof.
  split; [exact scenario_processed_well_keyed|].
  exact (index_stays_well_keyed scenario_processed small_run
           scenario_processed_well_keyed).
Defined.

Lemma references_stay_valid_witness :
  index_well_keyed scenario_processed
  /\ references_valid scenario_processed
  /\ references_valid (run scenario_processed small_run).
Proof.
  split; [exact scenario_processed_well_keyed|].
  split; [exact scenario_processed_references|].
  exact (proj2 (references_stay_valid scenario_processed small_run
                  scenario_processed_well_keyed
                  scenario_processed_references)).
Defined.

Lemma identity_fields_are_immutable_witness :
  let ops :=
    [OpEscalate "a1" 1;
     OpAcknowledge "a1" "alice" (timedelta_seconds 400);
     OpCreate "a2" (timedelta_seconds 500) keyed_args;
     OpResolve "a1" "alice" (Some "fixed") (timedelta_seconds 600)] in
  active_alerts scenario_processed !! "a1" = Some a1_new
  /\ exists alert',
       active_alerts (run scenario_processed ops) !! "a1" = Some alert'
       /\ same_identity a1_new alert'.
Proof.
  intros ops.
  assert (Hlook : active_alerts scenario_processed !! "a1" = Some a1_new)
    by (vm_compute; reflexivity).
  split; [exact Hlook|].
  apply (identity_fields_are_immutable scenario_processed ops "a1" a1_new
           Hlook).
  repeat constructor; simpl; discriminate.
Defined.

Lemma accepted_alert_blocks_its_key_witness :
  is_suppressed scenario_mgr (new_alert "a1" 0 keyed_args) = false
  /\ is_duplicate scenario_mgr (new_alert "a1" 0 keyed_args) = false
  /\ (let mgr' := snd (create_alert scenario_mgr "a1" 0 keyed_args) in
      alert_queue mgr' = alert_queue scenario_mgr ++ ["a1"]
      /\ create_alert mgr' "a2" (timedelta_seconds 60) keyed_args
         = ("a2", mgr')).
Proof.
  split; [reflexivity|]. split; [reflexivity|].
  destruct (accepted_alert_blocks_its_key scenario_mgr "a1" 0 keyed_args
              "db-down" eq_refl eq_refl eq_refl ltac:(discriminate))
    as (_ & _ & _ & _ & Hq & Hdup).
  split; [exact Hq|].
  exact (Hdup "a2" (timedelta_seconds 60) keyed_args eq_refl).
Defined.

Lemma resolved_or_escalated_alert_frees_its_key_witness :
  let probe := new_alert "a2" (timedelta_seconds 60) keyed_args in
  active_alerts keyed_mgr !! "a1" = Some (new_alert "a1" 0 keyed_args)
  /\ is_duplicate keyed_mgr probe = true
  /\ is_duplicate
       (snd (resolve_alert keyed_mgr "a1" "dba" None (timedelta_seconds 30)))
       probe = false
  /\ is_duplicate (escalate_alert keyed_mgr "a1" 1) probe = false.
Proof.
  intros probe.
  assert (Hlook : active_alerts keyed_mgr !! "a1"
                  = Some (new_alert "a1" 0 keyed_args))
    by (vm_compute; reflexivity).
  destruct (resolved_or_escalated_alert_frees_its_key keyed_mgr "a1"
              (new_alert "a1" 0 keyed_args) probe Hlook) as (Hres & Hesc).
  assert (Hnone : ~ exists k,
            dedup_key probe = Some k /\ k <> ""
            /\ exists i existing,
                 i <> "a1"
                 /\ active_alerts keyed_mgr !! i = Some existing
                 /\ dedup_key existing = Some k
                 /\ dedup_status (status existing) = true).
  { intros (k & _ & _ & i & e & Hne & Hi & _).
    assert (Hidx : active_alerts keyed_mgr
                   = {[ "a1" := new_alert "a1" 0 keyed_args ]})
      by (vm_compute; reflexivity).
    rewrite Hidx in Hi. apply lookup_singleton_Some in Hi as [<- _].
    by apply Hne. }
  split; [exact Hlook|]. split; [vm_compute; reflexivity|]. split.
  - apply not_true_is_false. intros Hdup.
    apply Hnone. exact (proj1 (Hres "dba" None (timedelta_seconds 30)) Hdup).
  - apply not_true_is_false. intros Hdup.
    apply Hnone.
    exact (proj1 (Hesc 1 high_policy [SLACK; EMAIL] eq_refl eq_refl eq_refl)
             Hdup).
Defined.

Lemma acknowledged_alert_still_escalates_witness :
  active_alerts scenario_processed !! "a1" = Some a1_new
  /\ (let acked :=
        snd (acknowledge_alert scenario_processed "a1" "alice"
               (timedelta_seconds 100)) in
      exists alert',
        active_alerts (escalate_alert acked "a1" 1) !! "a1" = Some alert'
        /\ status alert' = ESCALATED
        /\ escalation_level alert' = 1
        /\ acknowledged_by alert' = Some "alice"
        /\ acknowledged_at alert' = Some (timedelta_seconds 100)).
Proof.
  assert (Hlook : active_alerts scenario_processed !! "a1" = Some a1_new)
    by (vm_compute; reflexivity).
  split; [exact Hlook|].
  exact (acknowledged_alert_still_escalates scenario_processed "a1" "alice"
           (timedelta_seconds 100) a1_new 1 high_policy [SLACK; EMAIL]
           Hlook eq_refl eq_refl).
Defined.

Lemma notification_worker_processes_head_witness :
  let mgr := snd (create_alert scenario_mgr "a1" 0 high_args) in
  let mgr' := notification_worker mgr in
  alert_queue mgr = ["a1"]
  /\ active_alerts mgr !! "a1" = Some a1_new
  /\ alert_queue mgr' = []
  /\ send_log mgr' = [mk_SendCall EMAIL "a1" false]
  /\ db_log mgr' = db_log mgr ++ [SaveNotification "a1" EMAIL "sent" None]
  /\ timers mgr' = [mk_Timer (timedelta_seconds 300) "a1" 1].
Proof.
  intros mgr mgr'.
  assert (Hq : alert_queue mgr = ["a1"]) by reflexivity.
  assert (Hlook : active_alerts mgr !! "a1" = Some a1_new)
    by (vm_compute; reflexivity).
  destruct (notification_worker_processes_head mgr "a1" [] a1_new Hq Hlook)
    as (Hq' & _ & Hrest).
  change (get_escalation_policy mgr (severity a1_new))
    with (Some high_policy) in Hrest.
  destruct Hrest as (Hs & Hd & Ht).
  split; [exact Hq|]. split; [exact Hlook|]. split; [exact Hq'|].
  split; [exact Hs|]. split; [exact Hd|exact Ht].
Defined.

Lemma escalate_alert_postcondition_witness :
  active_alerts scenario_processed !! "a1" = Some a1_new
  /\ (let mgr' := escalate_alert scenario_processed "a1" 1 in
      active_alerts mgr'
      = <["a1" := set_status ESCALATED (set_escalation_level 1 a1_new)]>
          (active_alerts scenario_processed)
      /\ db_log mgr'
         = db_log scenario_processed
           ++ [SaveNotification "a1" SLACK "escalated" None;
               SaveNotification "a1" EMAIL "escalated" None]
      /\ timers mgr' = timers scenario_processed).
Proof.
  assert (Hlook : active_alerts scenario_processed !! "a1" = Some a1_new)
    by (vm_compute; reflexivity).
  split; [exact Hlook|].
  destruct (escalate_alert_postcondition scenario_processed "a1" a1_new 1
              high_policy [SLACK; EMAIL] Hlook eq_refl eq_refl eq_refl)
    as (Hstore & _ & Hdb & _ & Ht & _).
  split; [exact Hstore|]. split; [exact Hdb|exact Ht].
Defined.

Lemma level_keyed_thresholds_disable_the_pass_witness :
  process_escalations_loop two_level_mgr (timedelta_seconds 100000)
    [a1_new; emergency_alert]
  = PassDone two_level_mgr.
Proof.
  apply level_keyed_thresholds_disable_the_pass.
  constructor; [|constructor]. simpl.
  repeat (constructor; [eexists; reflexivity|]). constructor.
Defined.

Lemma periodic_action_waits_for_largest_threshold_witness :
  action_log
    (pass_manager
       (check_escalation emergency_mgr (timedelta_seconds 200) emergency_alert))
  = [SendSmsBroadcast "e1"]
  /\ forall s, In s (severity_levels emergency_policy) ->
       timedelta_seconds (severity_threshold emergency_policy s)
       < timedelta_seconds 200 - timestamp emergency_alert.
Proof.
  split; [reflexivity|].
  apply (periodic_action_waits_for_largest_threshold emergency_mgr
           (timedelta_seconds 200) emergency_alert emergency_policy eq_refl).
  simpl. discriminate.
Defined.
